(** * Solitary: execution sessions inside a long-lived Docker container

    Shallow embedding of [src/solitary/{exceptions,config,models,sandbox}.py]
    and the properties of the execution session manager.

    Conventions of the embedding.
    - Python [str] is [string]; [bytes] is [list byte]; [int] is [Z].
    - Python [float] is the binary64 [float] of the kernel: the subtraction
      of two readings of [time.time()] is the rounded one of IEEE 754, and a
      [float] is compared with an [int] on its exact value.
    - An exception instance is a class and the text [str(e)] gives.  Only
      instances of [Exception] are modelled (no [KeyboardInterrupt] or
      [SystemExit], which no collaborator of this code raises).
    - The Docker daemon, the clock, the local file system and the codec of
      [bytes.decode] are collaborators outside the repository: they are the
      fields of an environment [Env], answers being indexed by the number of
      interactions made so far, so that the same call can be answered
      differently later on. *)

From Stdlib Require Import String Ascii ZArith Bool List Lia DecimalString.
From Stdlib Require Import PrimFloat FloatOps SpecFloat.
Import ListNotations.
Local Open Scope string_scope.
Local Open Scope Z_scope.

(* ================================================================= *)
(** ** Python values used by the code *)

Module Py.

Definition bytes := list Byte.byte.

(** [str(n)] and the [{n}] of an f-string, for an [int]. *)
Definition str_of_int (n : Z) : string :=
  NilZero.string_of_int (Z.to_int n).

(** Truth value of a [str]: false exactly for the empty string. *)
Definition truthy_str (s : string) : bool :=
  match s with EmptyString => false | String _ _ => true end.

(** [x or d] for [x : Optional[str]]. *)
Definition or_str (x : option string) (d : string) : string :=
  match x with
  | Some s => if truthy_str s then s else d
  | None => d
  end.

(** [x or d] for [x : Optional[int]]. *)
Definition or_int (x : option Z) (d : Z) : Z :=
  match x with
  | Some n => if n =? 0 then d else n
  | None => d
  end.

(** [sep.join(parts)]. *)
Definition join (sep : string) (parts : list string) : string :=
  String.concat sep parts.

(** [needle in hay] for two [str]. *)
Fixpoint str_in (needle hay : string) : bool :=
  if String.prefix needle hay then true
  else match hay with
       | EmptyString => false
       | String _ rest => str_in needle rest
       end.

(** [x > n] for a [float] [x] and an [int] [n]: Python compares the exact
    value of [x], sign * mantissa * 2^exponent, with [n]; a NaN is greater
    than nothing. *)
Definition float_gt_int (x : float) (n : Z) : bool :=
  match Prim2SF x with
  | S754_nan => false
  | S754_infinity negative => negb negative
  | S754_zero _ => n <? 0
  | S754_finite negative m e =>
      let mantissa := if negative then Z.neg m else Z.pos m in
      if 0 <=? e then n <? mantissa * 2 ^ e
      else n * 2 ^ (- e) <? mantissa
  end.

(** [x >= 0] for a [float] [x], the test of pydantic's [ge=0]. *)
Definition float_ge_zero (x : float) : bool :=
  PrimFloat.leb 0%float x.

End Py.

(* ================================================================= *)
(** ** exceptions.py, and the library exception classes the code names *)

Module exceptions.

Inductive ExnClass : Type :=
(* builtins *)
| OSError | FileNotFoundError | AttributeError | ValueError
(* docker.errors *)
| DockerException | APIError | NotFound
(* pydantic *)
| ValidationError
(* solitary.exceptions *)
| SandboxError | ContainerNotFoundError | ExecutionTimeoutError
| ContainerConnectionError
(* any other class deriving directly from Exception *)
| OtherException (name : string).

Definition ExnClass_eq_dec (c d : ExnClass) : {c = d} + {c <> d}.
Proof. decide equality. apply string_dec. Defined.

(** Proper ancestors of a class, below [Exception]. *)
Definition bases (c : ExnClass) : list ExnClass :=
  match c with
  | FileNotFoundError => [OSError]
  | APIError => [DockerException]
  | NotFound => [APIError; DockerException]
  | ValidationError => [ValueError]
  | ContainerNotFoundError | ExecutionTimeoutError
  | ContainerConnectionError => [SandboxError]
  | _ => []
  end.

Definition issubclass (c d : ExnClass) : bool :=
  if ExnClass_eq_dec c d then true
  else existsb (fun b => if ExnClass_eq_dec b d then true else false) (bases c).

(** An exception instance: its class and [str(e)]. *)
Record Exn : Type := mkExn { exn_class : ExnClass; str : string }.

(** [isinstance(e, cls)], the test of an [except cls] clause. *)
Definition isinstance (e : Exn) (cls : ExnClass) : bool :=
  issubclass (exn_class e) cls.

Inductive Result (A : Type) : Type :=
| Ok (a : A)
| Raise (e : Exn).
Arguments Ok {A} a.
Arguments Raise {A} e.

(** A pydantic validation failure of [field] of [model]; the rendered text
    of the error is never read by the code. *)
Definition validation_error (model field : string) : Exn :=
  mkExn ValidationError (model ++ "." ++ field).

End exceptions.
Import exceptions.

(* ================================================================= *)
(** ** config.py *)

Module config.

Record SandboxConfig : Type := {
  container : string;
  workdir : string;
  timeout : Z;
  shell : string
}.

(** The inner [class Config] of a pydantic model. *)
Record ModelConfig : Type := {
  frozen : bool;
  validate_assignment : bool
}.

(** [SandboxConfig.Config] *)
Definition Config : ModelConfig :=
  {| frozen := true; validate_assignment := true |}.

(** [Field(ge=1, le=3600)] *)
Definition validate_timeout (t : Z) : Result Z :=
  if (1 <=? t) && (t <=? 3600) then Ok t
  else Raise (validation_error "SandboxConfig" "timeout").

(** [SandboxConfig(container=..., workdir=..., timeout=..., shell=...)]:
    [container] is required, an omitted keyword takes the field default
    (defaults are not validated). *)
Definition SandboxConfig_init (container : string) (workdir : option string)
    (timeout : option Z) (shell : option string) : Result SandboxConfig :=
  let workdir := match workdir with Some w => w | None => "/workspace" end in
  let shell := match shell with Some s => s | None => "/bin/bash" end in
  match timeout with
  | None =>
      Ok {| container := container; workdir := workdir;
            timeout := 30; shell := shell |}
  | Some t =>
      match validate_timeout t with
      | Ok t => Ok {| container := container; workdir := workdir;
                      timeout := t; shell := shell |}
      | Raise e => Raise e
      end
  end.

(** A value offered to an attribute assignment. *)
Inductive Value : Type :=
| VStr (s : string)
| VInt (n : Z).

(** What [cfg.name = v] stores in a model that is not frozen;
    [validate_assignment = True] has the value validated first. *)
Definition assign_field (cfg : SandboxConfig) (name : string) (v : Value)
    : Result SandboxConfig :=
  let c := container cfg in let w := workdir cfg in
  let t := timeout cfg in let s := shell cfg in
  let ill_typed := Raise (validation_error "SandboxConfig" name) in
  if String.eqb name "container" then
    match v with
    | VStr x => Ok {| container := x; workdir := w; timeout := t; shell := s |}
    | VInt _ => ill_typed
    end
  else if String.eqb name "workdir" then
    match v with
    | VStr x => Ok {| container := c; workdir := x; timeout := t; shell := s |}
    | VInt _ => ill_typed
    end
  else if String.eqb name "timeout" then
    match v with
    | VInt n =>
        match validate_timeout n with
        | Ok n => Ok {| container := c; workdir := w; timeout := n; shell := s |}
        | Raise e => Raise e
        end
    | VStr _ => ill_typed
    end
  else if String.eqb name "shell" then
    match v with
    | VStr x => Ok {| container := c; workdir := w; timeout := t; shell := x |}
    | VInt _ => ill_typed
    end
  else Raise (mkExn ValueError ("no field " ++ name)).

(** [cfg.name = v] under the model's [Config]: the outcome of the statement
    and the object as it is afterwards.  A frozen model refuses before
    anything is validated or stored. *)
Definition setattr (cfg : SandboxConfig) (name : string) (v : Value)
    : Result unit * SandboxConfig :=
  if frozen Config then
    (Raise (validation_error "SandboxConfig" name), cfg)
  else
    match assign_field cfg name v with
    | Ok cfg' => (Ok tt, cfg')
    | Raise e => (Raise e, cfg)
    end.

End config.

(* ================================================================= *)
(** ** models.py *)

Module models.

Inductive ResultType : Type := OUTPUT | ERROR.

Record ResultValue : Type := {
  type : ResultType;
  content : string
}.

Record ExecutionResult : Type := {
  stdout : string;
  stderr : string;
  exit_code : Z;
  execution_time : float;
  timeout_occurred : bool;
  container_id : string;
  command : string
}.

(** [ExecutionResult(stdout=..., ...)]: pydantic checks
    [execution_time >= 0] ([Field(ge=0)]). *)
Definition ExecutionResult_init (stdout stderr : string) (exit_code : Z)
    (execution_time : float) (timeout_occurred : bool)
    (container_id command : string) : Result ExecutionResult :=
  if Py.float_ge_zero execution_time then
    Ok {| stdout := stdout; stderr := stderr; exit_code := exit_code;
          execution_time := execution_time;
          timeout_occurred := timeout_occurred;
          container_id := container_id; command := command |}
  else Raise (validation_error "ExecutionResult" "execution_time").

(** [ExecutionResult.success] *)
Definition success (self : ExecutionResult) : bool :=
  (exit_code self =? 0) && negb (timeout_occurred self).

(** [ExecutionResult.return_value] *)
Definition return_value (self : ExecutionResult) : ResultValue :=
  if success self && Py.truthy_str (stdout self) then
    {| type := OUTPUT; content := stdout self |}
  else if Py.truthy_str (stderr self) then
    {| type := ERROR; content := stderr self |}
  else if negb (success self) then
    {| type := ERROR;
       content := "Command failed with exit code "
                  ++ Py.str_of_int (exit_code self) |}
  else
    {| type := OUTPUT; content := "" |}.

End models.

(* ================================================================= *)
(** ** The collaborators: docker, the clock, the file system, the codec *)

Module docker.

(** A [docker.DockerClient]; the number tells clients apart. *)
Definition DockerClient := nat.

(** A [docker.models.containers.Container] handle. *)
Record Container : Type := { id : string }.

(** What [Container.exec_run(..., demux=True)] returns: the exit code and the
    pair [(stdout, stderr)], each [bytes] or [None]. *)
Record ExecResult : Type := {
  exit_code : Z;
  output : option Py.bytes * option Py.bytes
}.

End docker.

(** Answers of the collaborators.  The first argument of a field that
    answers a call is the number of interactions made before it. *)
Record Env : Type := {
  (* docker.from_env() *)
  docker_from_env : nat -> Result docker.DockerClient;
  (* client.containers.get(name) *)
  containers_get : nat -> docker.DockerClient -> string -> Result docker.Container;
  (* container.exec_run(cmd, workdir=workdir, stdin=True, stdout=True,
       stderr=True, demux=True, stream=False, socket=False, environment=None) *)
  exec_run : nat -> docker.Container -> list string -> string
             -> Result docker.ExecResult;
  (* time.time() *)
  time_time : nat -> float;
  (* with open(path, "r") as f: f.read() *)
  open_read : nat -> string -> Result string;
  (* b.decode() *)
  bytes_decode : Py.bytes -> Result string
}.

(** The calls issued to the container runtime, oldest first. *)
Inductive Call : Type :=
| CallFromEnv
| CallGet (client : docker.DockerClient) (name : string)
| CallExecRun (c : docker.Container) (cmd : list string) (workdir : string).

Record World : Type := {
  tick : nat;          (* interactions with the collaborators so far *)
  calls : list Call    (* those of them that went to the runtime *)
}.

Definition step (w : World) : World :=
  {| tick := S (tick w); calls := calls w |}.

Definition issue (c : Call) (w : World) : World :=
  {| tick := S (tick w); calls := calls w ++ [c] |}.

(* ================================================================= *)
(** ** sandbox.py *)

Module sandbox.

Record Sandbox : Type := {
  config : config.SandboxConfig;
  _client : option docker.DockerClient;
  _container : option docker.Container
}.

(** A method body: it runs on the object and the world, leaves both as the
    statements executed so far made them, and returns or raises. *)
Definition M (A : Type) : Type := Sandbox * World -> Result A * (Sandbox * World).

Definition ret {A} (a : A) : M A := fun st => (Ok a, st).

Definition raise {A} (e : Exn) : M A := fun st => (Raise e, st).

Definition bind {A B} (m : M A) (k : A -> M B) : M B :=
  fun st =>
    match m st with
    | (Ok a, st') => k a st'
    | (Raise e, st') => (Raise e, st')
    end.

Declare Scope py_scope.
Delimit Scope py_scope with py.
Notation "x <- m ;; k" := (bind m (fun x => k))
  (at level 61, m at next level, right associativity) : py_scope.
Notation "m ;; k" := (bind m (fun _ => k))
  (at level 61, right associativity) : py_scope.
Local Open Scope py_scope.

(** [try: m  except Exception as e: h e], both ending the statement. *)
Definition try_except {A} (m : M A) (h : Exn -> M A) : M A :=
  fun st =>
    match m st with
    | (Ok a, st') => (Ok a, st')
    | (Raise e, st') => h e st'
    end.

(** The outcome of a [try] body handed to the code that follows, for a
    handler that leaves the function. *)
Definition attempt {A} (m : M A) : M (Result A) :=
  fun st => match m st with (r, st') => (Ok r, st') end.

Definition lift {A} (r : Result A) : M A := fun st => (r, st).

Definition self : M Sandbox := fun st => (Ok (fst st), st).

Definition set_client (c : option docker.DockerClient) : M unit :=
  fun '(sb, w) =>
    (Ok tt, ({| config := config sb; _client := c;
                _container := _container sb |}, w)).

Definition set_container (c : option docker.Container) : M unit :=
  fun '(sb, w) =>
    (Ok tt, ({| config := config sb; _client := _client sb;
                _container := c |}, w)).

(** Reading an attribute of [self._client] or [self._container]: on [None]
    the attribute access raises. *)
Definition deref {A} (what : string) (o : option A) : M A :=
  match o with
  | Some a => ret a
  | None => raise (mkExn AttributeError
                     ("'NoneType' object has no attribute '" ++ what ++ "'"))
  end.

Section WithEnv.

Variable env : Env.

Definition call_from_env : M docker.DockerClient :=
  fun '(sb, w) => (docker_from_env env (tick w), (sb, issue CallFromEnv w)).

Definition call_get (client : docker.DockerClient) (name : string)
    : M docker.Container :=
  fun '(sb, w) =>
    (containers_get env (tick w) client name, (sb, issue (CallGet client name) w)).

Definition call_exec_run (c : docker.Container) (cmd : list string)
    (workdir : string) : M docker.ExecResult :=
  fun '(sb, w) =>
    (exec_run env (tick w) c cmd workdir, (sb, issue (CallExecRun c cmd workdir) w)).

Definition call_time : M float :=
  fun '(sb, w) => (Ok (time_time env (tick w)), (sb, step w)).

Definition call_open_read (filepath : string) : M string :=
  fun '(sb, w) => (open_read env (tick w) filepath, (sb, step w)).

(** [b.decode() if b else ""]: [None] and [b""] are falsy. *)
Definition decode_or_empty (b : option Py.bytes) : M string :=
  match b with
  | Some (x :: xs) => lift (bytes_decode env (x :: xs))
  | _ => ret ""
  end.

(** [Sandbox._connect] *)
Definition _connect : M unit :=
  s <- self ;;
  match _client s with
  | None =>
      try_except
        (c <- call_from_env ;; set_client (Some c))
        (fun e => raise (mkExn ContainerConnectionError
                           ("Failed to connect to Docker: " ++ str e)))
  | Some _ => ret tt
  end ;;
  s <- self ;;
  match _container s with
  | None =>
      try_except
        (client <- deref "containers" (_client s) ;;
         c <- call_get client (config.container (config s)) ;;
         set_container (Some c))
        (fun e =>
           if isinstance e NotFound then
             raise (mkExn ContainerNotFoundError
                      ("Container '" ++ config.container (config s)
                       ++ "' not found"))
           else if isinstance e APIError then
             raise (mkExn ContainerConnectionError
                      ("Failed to access container: " ++ str e))
           else raise e)
  | Some _ => ret tt
  end.

(** The statements [execute] and [execute_shell] share word for word, from
    [start_time = time.time()] to the final [return] (lines 80-127 and
    147-194): dispatch [cmd], time it, decode the two streams, and turn any
    exception of the [try] body into a result with exit code -1. *)
Definition dispatch (cmd : list string) (execution_workdir : string)
    (execution_timeout : Z) : M models.ExecutionResult :=
  start_time <- call_time ;;
  let on_exception (e : Exn) (timeout_occurred : bool)
      : M models.ExecutionResult :=
    t <- call_time ;;
    let execution_time := (t - start_time)%float in
    s <- self ;;
    c <- deref "id" (_container s) ;;
    lift (models.ExecutionResult_init "" (str e) (-1) execution_time
            timeout_occurred (docker.id c) (Py.join " " cmd)) in
  s <- self ;;
  called <- attempt (c <- deref "exec_run" (_container s) ;;
                     call_exec_run c cmd execution_workdir) ;;
  match called with
  | Raise e => on_exception e false
  | Ok exec_result =>
      t <- call_time ;;
      let execution_time := (t - start_time)%float in
      let timeout_occurred := Py.float_gt_int execution_time execution_timeout in
      let '(stdout_bytes, stderr_bytes) := docker.output exec_result in
      decoded <- attempt (stdout <- decode_or_empty stdout_bytes ;;
                          stderr <- decode_or_empty stderr_bytes ;;
                          ret (stdout, stderr)) ;;
      match decoded with
      | Raise e => on_exception e timeout_occurred
      | Ok (stdout, stderr) =>
          s <- self ;;
          c <- deref "id" (_container s) ;;
          lift (models.ExecutionResult_init stdout stderr
                  (docker.exit_code exec_result) execution_time
                  timeout_occurred (docker.id c) (Py.join " " cmd))
      end
  end.

(** [Sandbox.execute] *)
Definition execute (code : string) (stdin : option string)
    (workdir : option string) (timeout : option Z)
    : M models.ExecutionResult :=
  _connect ;;
  s <- self ;;
  let execution_workdir := Py.or_str workdir (config.workdir (config s)) in
  let execution_timeout := Py.or_int timeout (config.timeout (config s)) in
  let cmd := ["python3"; "-c"; code] in
  dispatch cmd execution_workdir execution_timeout.

(** [Sandbox.execute_shell] *)
Definition execute_shell (command : string) (workdir : option string)
    (timeout : option Z) (shell : option string)
    : M models.ExecutionResult :=
  _connect ;;
  s <- self ;;
  let execution_workdir := Py.or_str workdir (config.workdir (config s)) in
  let execution_timeout := Py.or_int timeout (config.timeout (config s)) in
  let execution_shell := Py.or_str shell (config.shell (config s)) in
  let cmd := [execution_shell; "-c"; command] in
  dispatch cmd execution_workdir execution_timeout.

(** [Sandbox.execute_file] *)
Definition execute_file (filepath : string) (args : option (list string))
    (workdir : option string) (timeout : option Z)
    : M models.ExecutionResult :=
  opened <- attempt (call_open_read filepath) ;;
  match opened with
  | Raise e =>
      if isinstance e FileNotFoundError then
        s <- self ;;
        lift (models.ExecutionResult_init "" ("File not found: " ++ filepath)
                1 0%float false
                (match _container s with Some c => docker.id c | None => "" end)
                ("python3 " ++ filepath))
      else raise e
  | Ok code => execute code None workdir timeout
  end.

(** [Sandbox.is_healthy] *)
Definition is_healthy : M bool :=
  try_except
    (_connect ;;
     result <- execute "print('health_check')" None None (Some 5) ;;
     ret (models.success result
          && Py.str_in "health_check" (models.stdout result)))
    (fun _ => ret false).

End WithEnv.

End sandbox.

(* ================================================================= *)
(** ** Concrete collaborators, for running the model *)

Module scenario.

Import sandbox.

(** A codec that accepts exactly the 7-bit bytes. *)
Definition ascii_decode (b : Py.bytes) : Result string :=
  if forallb (fun x => (Byte.to_N x <? 128)%N) b
  then Ok (string_of_list_byte b)
  else Raise (mkExn ValueError "'utf-8' codec can't decode byte").

(** A world with one container, [sandbox], whose [exec_run] and whose files
    answer as given, and whose clock is [clock]. *)
Definition scripted (clock : nat -> float) (ran : Result docker.ExecResult)
    (file : Result string) : Env :=
  {| docker_from_env := fun _ => Ok 7%nat;
     containers_get := fun _ _ name =>
       if String.eqb name "sandbox" then Ok {| docker.id := "c0ffee" |}
       else Raise (mkExn NotFound ("404 Client Error: No such container: " ++ name));
     exec_run := fun _ _ _ _ => ran;
     time_time := clock;
     open_read := fun _ _ => file;
     bytes_decode := ascii_decode |}.

(** [SandboxConfig(container=name, workdir="/projects", timeout=10)] *)
Definition cfg (name : string) : config.SandboxConfig :=
  {| config.container := name; config.workdir := "/projects";
     config.timeout := 10; config.shell := "/bin/bash" |}.

(** [Sandbox(config=cfg(name))], not yet connected. *)
Definition fresh (name : string) : Sandbox * World :=
  ({| config := cfg name; _client := None; _container := None |},
   {| tick := 0; calls := [] |}).

(** A clock that advances half a second per interaction. *)
Fixpoint steady (n : nat) : float :=
  match n with
  | O => 0%float
  | S k => (steady k + 0.5)%float
  end.

(** A clock that is set back by five seconds while the dispatch runs. *)
Definition set_back (n : nat) : float :=
  if (n <? 4)%nat then 12%float else 7%float.

(** A clock on which the dispatch lasts a minute. *)
Definition stalled (n : nat) : float :=
  if (n <? 4)%nat then 100%float else 160%float.

Definition read_timeout : Exn :=
  mkExn (OtherException "ReadTimeout") "Read timed out. (read timeout=60)".

Definition no_such_file (path : string) : Exn :=
  mkExn FileNotFoundError ("[Errno 2] No such file or directory: '" ++ path ++ "'").

Definition hi : docker.ExecResult :=
  {| docker.exit_code := 0;
     docker.output := (Some [Byte.x68; Byte.x69; Byte.x0a], None) |}.

End scenario.

(* ================================================================= *)
(** ** The result model *)

Module result_spec.

Import models.

(** The classification of a result as the specification words it: four
    cases, each guarded by the failure of the ones before it. *)
Inductive classified (r : ExecutionResult) : ResultValue -> Prop :=
| output_stdout :
    success r = true -> stdout r <> "" ->
    classified r {| type := OUTPUT; content := stdout r |}
| error_stderr :
    ~ (success r = true /\ stdout r <> "") -> stderr r <> "" ->
    classified r {| type := ERROR; content := stderr r |}
| error_exit_code :
    ~ (success r = true /\ stdout r <> "") -> stderr r = "" ->
    success r = false ->
    classified r {| type := ERROR;
                    content := "Command failed with exit code "
                               ++ Py.str_of_int (exit_code r) |}
| output_empty :
    ~ (success r = true /\ stdout r <> "") -> stderr r = "" ->
    success r = true ->
    classified r {| type := OUTPUT; content := "" |}.

End result_spec.

Module session_spec.

(** What [_connect] raises when [containers.get] raised [e]. *)
Definition resolution_error (name : string) (e : Exn) : Exn :=
  if isinstance e NotFound then
    mkExn ContainerNotFoundError ("Container '" ++ name ++ "' not found")
  else if isinstance e APIError then
    mkExn ContainerConnectionError ("Failed to access container: " ++ str e)
  else e.

End session_spec.

(* ================================================================= *)
(** ** The rest of the session: container metadata, closing, scoped use *)

(** The values a container's [attrs] holds: what [json.loads] builds from the
    daemon's answer to an inspect request. *)
Module json.

#[local] Set Warnings "-register-all".

Inductive Json : Type :=
| JNull
| JBool (b : bool)
| JInt (n : Z)
| JFloat (x : float)
| JStr (s : string)
| JList (l : list Json)
| JDict (d : list (string * Json)).

#[local] Set Warnings "register-all".

(** A [dict] with [str] keys, as the list of its items (keys distinct). *)
Definition Dict : Type := list (string * Json).

Fixpoint lookup (k : string) (d : Dict) : option Json :=
  match d with
  | [] => None
  | (k', v) :: d' => if String.eqb k k' then Some v else lookup k d'
  end.

(** [type(v).__name__] *)
Definition type_name (v : Json) : string :=
  match v with
  | JNull => "NoneType" | JBool _ => "bool" | JInt _ => "int"
  | JFloat _ => "float" | JStr _ => "str" | JList _ => "list"
  | JDict _ => "dict"
  end.

(** [KeyError] and [TypeError], for which the code has no handler. *)
Definition KeyError : ExnClass := OtherException "KeyError".
Definition TypeError : ExnClass := OtherException "TypeError".

(** [v[k]] for a [str] key [k]. *)
Definition getitem (v : Json) (k : string) : Result Json :=
  match v with
  | JDict d =>
      match lookup k d with
      | Some x => Ok x
      | None => Raise (mkExn KeyError ("'" ++ k ++ "'"))
      end
  | JStr _ => Raise (mkExn TypeError "string indices must be integers, not 'str'")
  | JList _ =>
      Raise (mkExn TypeError "list indices must be integers or slices, not str")
  | _ => Raise (mkExn TypeError ("'" ++ type_name v ++ "' object is not subscriptable"))
  end.

Fixpoint mem_char (a : ascii) (chars : string) : bool :=
  match chars with
  | EmptyString => false
  | String c rest => if Ascii.eqb a c then true else mem_char a rest
  end.

(** [s.lstrip(chars)]: [s] without its leading characters that occur in
    [chars]. *)
Fixpoint lstrip (chars s : string) : string :=
  match s with
  | EmptyString => EmptyString
  | String a rest => if mem_char a chars then lstrip chars rest else s
  end.

(** [v.lstrip(chars)]: only a [str] has the method. *)
Definition call_lstrip (v : Json) (chars : string) : Result string :=
  match v with
  | JStr s => Ok (lstrip chars s)
  | _ => Raise (mkExn AttributeError
                  ("'" ++ type_name v ++ "' object has no attribute 'lstrip'"))
  end.

End json.

(** The final [class ContainerInfo] of models.py (the class of that name
    defined before it is rebound by this one). *)
Module container_info.

Record ContainerInfo : Type := {
  id : string;
  name : string;
  image : string;
  status : string;
  created : string
}.

(** A [str] field of a pydantic model takes a [str] and nothing else. *)
Definition validate_str (field : string) (v : json.Json) : Result string :=
  match v with
  | json.JStr s => Ok s
  | _ => Raise (validation_error "ContainerInfo" field)
  end.

(** [ContainerInfo(id=..., name=..., image=..., status=..., created=...)]
    where [id] and [name] are [str] already. *)
Definition ContainerInfo_init (id name : string) (image status created : json.Json)
    : Result ContainerInfo :=
  match validate_str "image" image with
  | Raise e => Raise e
  | Ok image =>
      match validate_str "status" status with
      | Raise e => Raise e
      | Ok status =>
          match validate_str "created" created with
          | Raise e => Raise e
          | Ok created =>
              Ok {| id := id; name := name; image := image;
                    status := status; created := created |}
          end
      end
  end.

End container_info.

(** What the client and container objects do without a request to the
    daemon. *)
Record Objects : Type := {
  (* client.close(): releases the connection pool of the client; answers are
     indexed as those of [Env] *)
  client_close : nat -> docker.DockerClient -> Result unit;
  (* container.attrs, as the handle read at that moment holds them *)
  container_attrs : nat -> docker.Container -> json.Dict
}.

Module lifecycle.

Import sandbox.
Local Open Scope py_scope.

(** [Sandbox(config=config)]: both private attributes start as [None]. *)
Definition Sandbox_init (config : config.SandboxConfig) : Sandbox :=
  {| config := config; _client := None; _container := None |}.

Section WithObjects.

Variable env : Env.
Variable obj : Objects.

Definition call_client_close (client : docker.DockerClient) : M unit :=
  fun '(sb, w) => (client_close obj (tick w) client, (sb, step w)).

Definition read_attrs (c : docker.Container) : M json.Json :=
  fun '(sb, w) => (Ok (json.JDict (container_attrs obj (tick w) c)), (sb, w)).

(** [Sandbox.close] *)
Definition close : M unit :=
  s <- self ;;
  match _client s with
  | Some client => call_client_close client ;; set_client None
  | None => ret tt
  end ;;
  set_container None.

(** [Sandbox.__enter__] *)
Definition __enter__ : M Sandbox :=
  _connect env ;;
  self.

(** [Sandbox.__exit__]: it returns [None], so an exception of the block is
    not suppressed. *)
Definition __exit__ : M unit :=
  close.

(** [with sandbox as s: body]: [__enter__], the block, then [__exit__]
    whether the block returned or raised; the block's outcome is the
    statement's unless [__exit__] raises itself. *)
Definition with_ {A} (body : M A) : M A :=
  __enter__ ;;
  r <- attempt body ;;
  __exit__ ;;
  lift r.

(** [Sandbox.get_container_info] *)
Definition get_container_info : M container_info.ContainerInfo :=
  _connect env ;;
  s <- self ;;
  c <- deref "attrs" (_container s) ;;
  container_attrs <- read_attrs c ;;
  s <- self ;;
  c <- deref "id" (_container s) ;;
  name <- lift (json.getitem container_attrs "Name") ;;
  name <- lift (json.call_lstrip name "/") ;;
  config <- lift (json.getitem container_attrs "Config") ;;
  image <- lift (json.getitem config "Image") ;;
  state <- lift (json.getitem container_attrs "State") ;;
  status <- lift (json.getitem state "Status") ;;
  created <- lift (json.getitem container_attrs "Created") ;;
  lift (container_info.ContainerInfo_init (docker.id c) name image status created).

End WithObjects.

End lifecycle.

Module dispatch_spec.

(** [b.decode() if b else ""] as a value: decoding touches neither the
    session nor the world. *)
Definition decode_value (env : Env) (b : option Py.bytes) : Result string :=
  match b with
  | Some (x :: xs) => bytes_decode env (x :: xs)
  | _ => Ok ""
  end.

(** The two streams of an [exec_run] answer, [stdout] first. *)
Definition decode_streams (env : Env) (x : docker.ExecResult)
    : Result (string * string) :=
  match decode_value env (fst (docker.output x)) with
  | Raise e => Raise e
  | Ok out =>
      match decode_value env (snd (docker.output x)) with
      | Raise e => Raise e
      | Ok err => Ok (out, err)
      end
  end.

(** The world after a dispatch at [w]: a clock reading, the [exec_run] call
    and a second clock reading. *)
Definition dispatched (c : docker.Container) (cmd : list string)
    (workdir : string) (w : World) : World :=
  step (issue (CallExecRun c cmd workdir) (step w)).

End dispatch_spec.

Module scenario_info.

Import json.

(** The part of an inspect answer the code reads. *)
Definition inspected : Dict :=
  [("Id", JStr "c0ffee");
   ("Created", JStr "2024-05-01T10:00:00.000000000Z");
   ("Name", JStr "/sandbox");
   ("State", JDict [("Status", JStr "running"); ("Running", JBool true)]);
   ("Config", JDict [("Image", JStr "python:3.11-slim")])].

(** Objects whose client closes without error and whose container holds
    [attrs]. *)
Definition objects (attrs : Dict) : Objects :=
  {| client_close := fun _ _ => Ok tt;
     container_attrs := fun _ _ => attrs |}.

(** Objects whose client fails to close. *)
Definition stuck : Objects :=
  {| client_close := fun _ _ => Raise (mkExn OSError "Bad file descriptor");
     container_attrs := fun _ _ => inspected |}.

Definition permission_denied (path : string) : Exn :=
  mkExn (OtherException "PermissionError")
    ("[Errno 13] Permission denied: '" ++ path ++ "'").

Definition health : docker.ExecResult :=
  {| docker.exit_code := 0;
     docker.output :=
       (Some (list_byte_of_string "health_check
"), None) |}.

(** A host without a reachable daemon. *)
Definition no_daemon : Env :=
  {| docker_from_env := fun _ =>
       Raise (mkExn DockerException "Error while fetching server API version");
     containers_get := fun _ _ _ => Ok {| docker.id := "c0ffee" |};
     exec_run := fun _ _ _ _ => Ok health;
     time_time := scenario.steady;
     open_read := fun _ _ => Ok "";
     bytes_decode := scenario.ascii_decode |}.

(** An answer whose stdout is not text. *)
Definition garbled : docker.ExecResult :=
  {| docker.exit_code := 0;
     docker.output := (Some [Byte.xff; Byte.xfe], None) |}.

(** A clock that reads 0.3 before the dispatch and 10.3 after it (the
    doubles nearest to them). *)
Definition ten_seconds (n : nat) : float :=
  if (n <? 4)%nat then 0x1.3333333333333p-2%float
  else 0x1.499999999999ap+3%float.

(** A clock that reads 0.7 before the dispatch and 5.7 after it (the
    doubles nearest to them). *)
Definition five_seconds (n : nat) : float :=
  if (n <? 4)%nat then 0x1.6666666666666p-1%float
  else 0x1.6cccccccccccdp+2%float.

(** The session of [scenario.fresh "sandbox"] once connected. *)
Definition connected : sandbox.Sandbox * World :=
  ({| sandbox.config := scenario.cfg "sandbox";
      sandbox._client := Some 7%nat;
      sandbox._container := Some {| docker.id := "c0ffee" |} |},
   {| tick := 2; calls := [CallFromEnv; CallGet 7%nat "sandbox"] |}).

End scenario_info.

Section PythonValues.

Lemma prefix_iff (n h : string) :
  String.prefix n h = true <-> exists b, h = n ++ b.
Proof.
  revert h; induction n as [|a n IH]; intros h; simpl.
  - split; [exists h; reflexivity | now destruct h].
  - destruct h as [|c h]; simpl.
    + split; [discriminate | intros [b Hb]; discriminate].
    + destruct (Ascii.ascii_dec a c) as [->|Hac].
      * rewrite IH. split; intros [b Hb]; exists b; congruence.
      * split; [discriminate | intros [b Hb]; congruence].
Qed.

Lemma str_in_unfold (n h : string) :
  Py.str_in n h
  = if String.prefix n h then true
    else match h with
         | EmptyString => false
         | String _ rest => Py.str_in n rest
         end.
Proof. destruct h; reflexivity. Qed.

(** [Py.str_in] is the substring test. *)
Lemma str_in_iff (n h : string) :
  Py.str_in n h = true <-> exists a b, h = a ++ n ++ b.
Proof.
  split.
  - induction h as [|c h IH]; rewrite str_in_unfold;
      destruct (String.prefix n _) eqn:Hp.
    + apply prefix_iff in Hp as [b Hb]. intros _. exists "", b. exact Hb.
    + discriminate.
    + apply prefix_iff in Hp as [b Hb]. intros _. exists "", b. exact Hb.
    + intros H. destruct (IH H) as (a & b & ->). exists (String c a), b. reflexivity.
  - intros (a & b & ->). induction a as [|c a IH]; rewrite str_in_unfold.
    + simpl. now rewrite (proj2 (prefix_iff n (n ++ b)) (ex_intro _ b eq_refl)).
    + destruct (String.prefix n _); [reflexivity | exact IH].
Qed.

(** The comparison on values near and far from the integers, and the
    rounding of a difference of readings. *)
Example float_gt_int_samples :
  Py.float_gt_int 60 10 = true /\ Py.float_gt_int 10 10 = false
  /\ Py.float_gt_int 0.5 0 = true /\ Py.float_gt_int (-0.5) 0 = false
  /\ Py.float_gt_int (-5) (-6) = true
  /\ Py.float_gt_int 9007199254740992 9007199254740993 = false
  /\ Py.float_gt_int infinity (10 ^ 400) = true
  /\ Py.float_gt_int nan 0 = false
  /\ (0x1.499999999999ap+3 - 0x1.3333333333333p-2)%float = 10%float.
Proof. repeat split. Qed.

Lemma or_str_falsy (d : string) :
  Py.or_str (Some "") d = d /\ Py.or_str None d = d.
Proof. split; reflexivity. Qed.

Lemma or_int_falsy (d : Z) :
  Py.or_int (Some 0) d = d /\ Py.or_int None d = d.
Proof. split; reflexivity. Qed.

End PythonValues.

Section ResultModel.

Import models result_spec.

Lemma truthy_str_true (s : string) : Py.truthy_str s = true <-> s <> "".
Proof. destruct s; simpl; split; congruence. Qed.

Lemma truthy_str_false (s : string) : Py.truthy_str s = false <-> s = "".
Proof. destruct s; simpl; split; congruence. Qed.

Example str_of_int_samples :
  Py.str_of_int (-1) = "-1" /\ Py.str_of_int 0 = "0" /\
  Py.str_of_int 137 = "137" /\ Py.str_of_int (-20) = "-20".
Proof. repeat split. Qed.

Lemma success_iff (r : ExecutionResult) :
  success r = true <-> exit_code r = 0 /\ timeout_occurred r = false.
Proof.
  unfold success. rewrite andb_true_iff, Z.eqb_eq, negb_true_iff. tauto.
Qed.

Lemma return_value_classified (r : ExecutionResult) :
  classified r (return_value r).
Proof.
  unfold return_value.
  destruct (success r) eqn:Hs; destruct (Py.truthy_str (stdout r)) eqn:Ho;
    destruct (Py.truthy_str (stderr r)) eqn:He; simpl;
    repeat match goal with
      | H : Py.truthy_str _ = true |- _ => apply truthy_str_true in H
      | H : Py.truthy_str _ = false |- _ => apply truthy_str_false in H
      end.
  - now apply output_stdout.
  - now apply output_stdout.
  - apply error_stderr; [intros [_ Hn]; congruence | assumption].
  - apply output_empty; [intros [_ Hn]; congruence | assumption | assumption].
  - apply error_stderr; [intros [Hn _]; congruence | assumption].
  - apply error_exit_code; [intros [Hn _]; congruence | assumption | assumption].
  - apply error_stderr; [intros [Hn _]; congruence | assumption].
  - apply error_exit_code; [intros [Hn _]; congruence | assumption | assumption].
Qed.

Lemma classified_functional (r : ExecutionResult) (v v' : ResultValue) :
  classified r v -> classified r v' -> v = v'.
Proof.
  intros Hv Hv'; destruct Hv; destruct Hv'; try reflexivity;
    solve [ exfalso; tauto | congruence ].
Qed.

(** C1: [success] is [exit_code == 0 and not timeout_occurred], and
    [return_value] is the value the four-case precedence of the
    specification singles out: stdout on success first, then stderr (also
    for a failed command), then the message with the exit code, then the
    empty output. *)
Theorem C1_success_and_return_value (r : ExecutionResult) :
  success r = (exit_code r =? 0) && negb (timeout_occurred r)
  /\ (success r = true <-> exit_code r = 0 /\ timeout_occurred r = false)
  /\ (forall v, return_value r = v <-> classified r v).
Proof.
  split; [reflexivity |]. split; [apply success_iff |].
  intros v; split.
  - intros <-. apply return_value_classified.
  - intros Hv. eapply classified_functional; [apply return_value_classified | exact Hv].
Qed.

End ResultModel.

(* ================================================================= *)
(** ** The configuration *)

Section Configuration.

Import config.

Lemma validate_timeout_ok (t : Z) :
  1 <= t <= 3600 -> validate_timeout t = Ok t.
Proof.
  intros [H1 H2]. unfold validate_timeout.
  apply Z.leb_le in H1, H2. now rewrite H1, H2.
Qed.

Lemma validate_timeout_fails (t : Z) :
  t < 1 \/ 3600 < t ->
  validate_timeout t = Raise (validation_error "SandboxConfig" "timeout").
Proof.
  intros H. unfold validate_timeout.
  destruct (Z.leb_spec 1 t), (Z.leb_spec t 3600); simpl; try reflexivity; lia.
Qed.

(** C5: construction fails with a validation error exactly when the timeout
    given lies outside [1, 3600]; 0 and 3601 are refused, 1 and 3600 are
    accepted, and a configuration built without a timeout has 30. *)
Theorem C5_timeout_bounds :
  (forall c w t s,
      (exists e, SandboxConfig_init c w (Some t) s = Raise e
                 /\ exn_class e = ValidationError)
      <-> (t < 1 \/ 3600 < t))
  /\ (forall c w t s,
      (exists cfg, SandboxConfig_init c w (Some t) s = Ok cfg /\ timeout cfg = t)
      <-> 1 <= t <= 3600)
  /\ (forall c w s,
      (exists e, SandboxConfig_init c w (Some 0) s = Raise e)
      /\ (exists e, SandboxConfig_init c w (Some 3601) s = Raise e)
      /\ (exists cfg, SandboxConfig_init c w (Some 1) s = Ok cfg)
      /\ (exists cfg, SandboxConfig_init c w (Some 3600) s = Ok cfg)
      /\ (exists cfg, SandboxConfig_init c w None s = Ok cfg /\ timeout cfg = 30)).
Proof.
  split; [| split].
  - intros c w t s. unfold SandboxConfig_init. split.
    + intros [e [He _]].
      destruct (Z_le_dec 1 t); [| lia]. destruct (Z_le_dec t 3600); [| lia].
      rewrite validate_timeout_ok in He by lia. discriminate.
    + intros H. rewrite (validate_timeout_fails t H). eexists; split; reflexivity.
  - intros c w t s. unfold SandboxConfig_init. split.
    + intros [cfg [Hc _]].
      destruct (Z_lt_dec t 1) as [H|H]; [| destruct (Z_lt_dec 3600 t) as [H'|H']; [| lia]];
        rewrite validate_timeout_fails in Hc by lia; discriminate.
    + intros H. rewrite (validate_timeout_ok t H). eexists; split; reflexivity.
  - intros c w s. repeat split; eexists; try split; reflexivity.
Qed.

(** C6: assigning to [container], [workdir], [timeout] or [shell] of a
    constructed configuration fails, whatever the value, and leaves the
    configuration as it was. *)
Theorem C6_frozen (cfg : SandboxConfig) (v : Value) :
  (exists e, setattr cfg "container" v = (Raise e, cfg))
  /\ (exists e, setattr cfg "workdir" v = (Raise e, cfg))
  /\ (exists e, setattr cfg "timeout" v = (Raise e, cfg))
  /\ (exists e, setattr cfg "shell" v = (Raise e, cfg)).
Proof. repeat split; eexists; reflexivity. Qed.

End Configuration.

(* ================================================================= *)
(** ** The execution session *)

Section Session.

Import sandbox session_spec.
Local Open Scope py_scope.

Variable env : Env.

(** *** Connecting *)

Lemma _connect_connected sb w c h :
  _client sb = Some c -> _container sb = Some h ->
  _connect env (sb, w) = (Ok tt, (sb, w)).
Proof.
  destruct sb as [cf cl ct]; simpl; intros -> ->. reflexivity.
Qed.

Lemma _connect_ok sb w sb1 w1 :
  _connect env (sb, w) = (Ok tt, (sb1, w1)) ->
  config sb1 = config sb
  /\ (exists c, _client sb1 = Some c) /\ (exists h, _container sb1 = Some h).
Proof.
  destruct sb as [cf [c|] [h|]]; unfold _connect, bind, try_except, self; simpl.
  - intros [= <- <-]; simpl; eauto.
  - destruct (containers_get env (tick w) c (config.container cf)) as [h|e]; simpl.
    + intros [= <- <-]; simpl; eauto.
    + destruct (isinstance e NotFound); [discriminate |].
      destruct (isinstance e APIError); discriminate.
  - destruct (docker_from_env env (tick w)) as [c|e]; simpl.
    + intros [= <- <-]; simpl; eauto.
    + discriminate.
  - destruct (docker_from_env env (tick w)) as [c|e]; simpl; [| discriminate].
    destruct (containers_get env (S (tick w)) c (config.container cf)) as [h|e]; simpl.
    + intros [= <- <-]; simpl; eauto.
    + destruct (isinstance e NotFound); [discriminate |].
      destruct (isinstance e APIError); discriminate.
Qed.

(** [_connect] with a client and no container: one [containers.get]. *)
Lemma _connect_resolves cf c w :
  let sb := {| config := cf; _client := Some c; _container := None |} in
  let w' := issue (CallGet c (config.container cf)) w in
  _connect env (sb, w)
  = match containers_get env (tick w) c (config.container cf) with
    | Ok h => (Ok tt, ({| config := cf; _client := Some c;
                          _container := Some h |}, w'))
    | Raise e => (Raise (resolution_error (config.container cf) e), (sb, w'))
    end.
Proof.
  unfold _connect, bind, try_except, self, resolution_error; simpl.
  destruct (containers_get env (tick w) c (config.container cf)) as [h|e];
    simpl; [reflexivity |].
  destruct (isinstance e NotFound); [reflexivity |].
  destruct (isinstance e APIError); reflexivity.
Qed.

(** [_connect] from scratch when [docker.from_env()] succeeds. *)
Lemma _connect_acquires cf c w :
  docker_from_env env (tick w) = Ok c ->
  _connect env ({| config := cf; _client := None; _container := None |}, w)
  = _connect env ({| config := cf; _client := Some c; _container := None |},
                  issue CallFromEnv w).
Proof.
  intros H. rewrite _connect_resolves.
  unfold _connect, bind, try_except, self, resolution_error; simpl.
  rewrite H; simpl.
  destruct (containers_get env (S (tick w)) c (config.container cf)) as [h|e];
    simpl; [reflexivity |].
  destruct (isinstance e NotFound); [reflexivity |].
  destruct (isinstance e APIError); reflexivity.
Qed.

(** C9: when [docker.from_env()] succeeds and [containers.get] raises, the
    failed [_connect] leaves the acquired client in [self._client] (and no
    container), raising [ContainerNotFoundError] for [NotFound] and
    [ContainerConnectionError] for another [APIError]; the next [_connect]
    issues a single [containers.get] on that same client and no
    [docker.from_env()], and connects if this one succeeds. *)
Theorem C9_connect_keeps_client sb w c e
    (Hclient : _client sb = None) (Hcontainer : _container sb = None)
    (Hfrom_env : docker_from_env env (tick w) = Ok c)
    (Hget : containers_get env (S (tick w)) c (config.container (config sb))
            = Raise e) :
  let name := config.container (config sb) in
  let sb1 := {| config := config sb; _client := Some c; _container := None |} in
  let w1 := issue (CallGet c name) (issue CallFromEnv w) in
  _connect env (sb, w) = (Raise (resolution_error name e), (sb1, w1))
  /\ (isinstance e NotFound = true ->
      exn_class (resolution_error name e) = ContainerNotFoundError)
  /\ (isinstance e NotFound = false -> isinstance e APIError = true ->
      exn_class (resolution_error name e) = ContainerConnectionError)
  /\ calls (snd (snd (_connect env (sb1, w1)))) = (calls w1 ++ [CallGet c name])%list
  /\ _client (fst (snd (_connect env (sb1, w1)))) = Some c
  /\ (forall h, containers_get env (tick w1) c name = Ok h ->
      _connect env (sb1, w1)
      = (Ok tt, ({| config := config sb; _client := Some c;
                    _container := Some h |}, issue (CallGet c name) w1))).
Proof.
  destruct sb as [cf cl ct]; simpl in Hclient, Hcontainer, Hget; subst cl ct.
  intros name sb1 w1; subst name sb1; cbn [config] in *.
  split; [| split; [| split; [| split; [| split]]]].
  - rewrite (_connect_acquires cf c w Hfrom_env), _connect_resolves.
    cbn [tick issue]. now rewrite Hget.
  - unfold resolution_error. now intros ->.
  - unfold resolution_error. now intros -> ->.
  - rewrite _connect_resolves.
    now destruct (containers_get env (tick w1) c (config.container cf)).
  - rewrite _connect_resolves.
    now destruct (containers_get env (tick w1) c (config.container cf)).
  - intros h Hh. rewrite _connect_resolves. now rewrite Hh.
Qed.

(** *** Dispatching *)

(** [dispatch] when [exec_run] raises: two clock readings around the call
    and the construction of the exit code -1 result, flag unset. *)
Lemma dispatch_raised cmd wd tmo sb w c e :
  _container sb = Some c ->
  exec_run env (S (tick w)) c cmd wd = Raise e ->
  dispatch env cmd wd tmo (sb, w)
  = (models.ExecutionResult_init "" (str e) (-1)
       (time_time env (S (S (tick w))) - time_time env (tick w))%float false
       (docker.id c) (Py.join " " cmd),
     (sb, step (issue (CallExecRun c cmd wd) (step w)))).
Proof.
  intros Hc He. destruct sb as [cf cl ct]; simpl in Hc; subst ct.
  unfold dispatch, bind, attempt, call_time, self, lift, deref, call_exec_run, ret.
  cbn [fst snd tick step issue _container]. now rewrite He.
Qed.

(** [dispatch] when [exec_run] returns and both streams decode: the flag
    is the comparison of the measured time with the timeout in force. *)
Lemma dispatch_returned cmd wd tmo sb w c x out err :
  _container sb = Some c ->
  exec_run env (S (tick w)) c cmd wd = Ok x ->
  decode_or_empty env (fst (docker.output x)) (sb, w) = (Ok out, (sb, w)) ->
  decode_or_empty env (snd (docker.output x)) (sb, w) = (Ok err, (sb, w)) ->
  let elapsed := (time_time env (S (S (tick w))) - time_time env (tick w))%float in
  dispatch env cmd wd tmo (sb, w)
  = (models.ExecutionResult_init out err (docker.exit_code x) elapsed
       (Py.float_gt_int elapsed tmo) (docker.id c) (Py.join " " cmd),
     (sb, step (issue (CallExecRun c cmd wd) (step w)))).
Proof.
  intros Hc Hx Ho He. destruct sb as [cf cl ct]; simpl in Hc; subst ct.
  destruct x as [code [so se]]; cbn [docker.output docker.exit_code fst snd] in *.
  unfold dispatch, bind, attempt, call_time, self, lift, deref, call_exec_run, ret.
  cbn [fst snd tick step issue _container docker.output docker.exit_code].
  rewrite Hx.
  unfold decode_or_empty, lift, ret in *.
  destruct so as [[|b bs]|], se as [[|b' bs']|];
    repeat match goal with
      | H : (_, _) = (_, _) |- _ => injection H as H
      end; subst; cbn -[Py.join PrimFloat.sub];
    repeat match goal with
      | H : bytes_decode env _ = Ok _ |- _ => rewrite H; cbn -[Py.join PrimFloat.sub]
      end; reflexivity.
Qed.

Lemma ExecutionResult_init_ok out err code elapsed flag cid cmd :
  Py.float_ge_zero elapsed = true ->
  models.ExecutionResult_init out err code elapsed flag cid cmd
  = Ok {| models.stdout := out; models.stderr := err; models.exit_code := code;
          models.execution_time := elapsed; models.timeout_occurred := flag;
          models.container_id := cid; models.command := cmd |}.
Proof.
  intros H. unfold models.ExecutionResult_init. now rewrite H.
Qed.

(** *** execute and execute_shell *)

(** The recovery of a failed dispatch where it works: when [_connect]
    succeeds, [exec_run] raises [e] and the time measured in the handler is
    not negative, [execute] and [execute_shell] return a result with exit
    code -1, [stderr] the text of [e], empty [stdout] and [execution_time]
    the difference of the two readings. *)
Lemma execute_dispatch_failure_recovered sb w sb1 w1 c e
    (Hconnect : _connect env (sb, w) = (Ok tt, (sb1, w1)))
    (Hcontainer : _container sb1 = Some c)
    (Hmeasured : Py.float_ge_zero
                   (time_time env (S (S (tick w1))) - time_time env (tick w1))%float
                 = true) :
  let elapsed := (time_time env (S (S (tick w1))) - time_time env (tick w1))%float in
  (forall code stdin workdir timeout,
      let cmd := ["python3"; "-c"; code] in
      let wd := Py.or_str workdir (config.workdir (config sb)) in
      exec_run env (S (tick w1)) c cmd wd = Raise e ->
      exists r,
        execute env code stdin workdir timeout (sb, w)
        = (Ok r, (sb1, step (issue (CallExecRun c cmd wd) (step w1))))
        /\ models.exit_code r = -1 /\ models.stderr r = str e
        /\ models.stdout r = "" /\ models.execution_time r = elapsed)
  /\ (forall command workdir timeout shell,
      let cmd := [Py.or_str shell (config.shell (config sb)); "-c"; command] in
      let wd := Py.or_str workdir (config.workdir (config sb)) in
      exec_run env (S (tick w1)) c cmd wd = Raise e ->
      exists r,
        execute_shell env command workdir timeout shell (sb, w)
        = (Ok r, (sb1, step (issue (CallExecRun c cmd wd) (step w1))))
        /\ models.exit_code r = -1 /\ models.stderr r = str e
        /\ models.stdout r = "" /\ models.execution_time r = elapsed).
Proof.
  intros elapsed.
  destruct (_connect_ok _ _ _ _ Hconnect) as [Hcfg _].
  pose proof Hmeasured as Hpos. fold elapsed in Hpos.
  split.
  - intros code stdin workdir timeout cmd wd Hraise.
    eexists; split.
    + unfold execute, bind, self. rewrite Hconnect. cbn [fst].
      rewrite Hcfg. fold cmd wd.
      rewrite (dispatch_raised cmd wd _ sb1 w1 c e Hcontainer Hraise).
      fold elapsed. rewrite (ExecutionResult_init_ok _ _ _ _ _ _ _ Hpos).
      reflexivity.
    + repeat split.
  - intros command workdir timeout shell cmd wd Hraise.
    eexists; split.
    + unfold execute_shell, bind, self. rewrite Hconnect. cbn [fst].
      rewrite Hcfg. fold cmd wd.
      rewrite (dispatch_raised cmd wd _ sb1 w1 c e Hcontainer Hraise).
      fold elapsed. rewrite (ExecutionResult_init_ok _ _ _ _ _ _ _ Hpos).
      reflexivity.
    + repeat split.
Qed.

(** On the path where [exec_run] returns and the streams decode, the flag
    of the result is the comparison of its [execution_time] with the
    timeout in force. *)
Lemma execute_returned_flag code stdin workdir timeout sb w sb1 w1 c x out err r st :
  _connect env (sb, w) = (Ok tt, (sb1, w1)) ->
  _container sb1 = Some c ->
  exec_run env (S (tick w1)) c ["python3"; "-c"; code]
    (Py.or_str workdir (config.workdir (config sb))) = Ok x ->
  decode_or_empty env (fst (docker.output x)) (sb1, w1) = (Ok out, (sb1, w1)) ->
  decode_or_empty env (snd (docker.output x)) (sb1, w1) = (Ok err, (sb1, w1)) ->
  execute env code stdin workdir timeout (sb, w) = (Ok r, st) ->
  models.timeout_occurred r
  = Py.float_gt_int (models.execution_time r)
      (Py.or_int timeout (config.timeout (config sb))).
Proof.
  intros Hconnect Hc Hx Ho He.
  destruct (_connect_ok _ _ _ _ Hconnect) as [Hcfg _].
  unfold execute, bind, self. rewrite Hconnect. cbn [fst]. rewrite Hcfg.
  rewrite (dispatch_returned _ _ _ sb1 w1 c x out err Hc Hx Ho He).
  unfold models.ExecutionResult_init.
  destruct (Py.float_ge_zero _); [| discriminate].
  now intros [= <- _].
Qed.

(** C10: a falsy override is dropped.  [execute] with [workdir=""] and
    [timeout=0], and [execute_shell] with these and [shell=""], are
    [_connect] followed by the dispatch with the working directory, the
    timeout and the shell of the configuration; each such argument, alone,
    behaves as the omitted one. *)
Theorem C10_falsy_override_falls_back :
  (forall code stdin,
      execute env code stdin (Some "") (Some 0)
      = (_connect env ;;
         s <- self ;;
         dispatch env ["python3"; "-c"; code]
           (config.workdir (config s)) (config.timeout (config s))))
  /\ (forall command,
      execute_shell env command (Some "") (Some 0) (Some "")
      = (_connect env ;;
         s <- self ;;
         dispatch env [config.shell (config s); "-c"; command]
           (config.workdir (config s)) (config.timeout (config s))))
  /\ (forall code stdin workdir timeout,
      execute env code stdin (Some "") timeout = execute env code stdin None timeout
      /\ execute env code stdin workdir (Some 0) = execute env code stdin workdir None)
  /\ (forall command workdir timeout shell,
      execute_shell env command (Some "") timeout shell
      = execute_shell env command None timeout shell
      /\ execute_shell env command workdir (Some 0) shell
         = execute_shell env command workdir None shell
      /\ execute_shell env command workdir timeout (Some "")
         = execute_shell env command workdir timeout None).
Proof. repeat split. Qed.

(** *** execute_file *)

(** [execute_file] by the outcome of reading the file. *)
Lemma execute_file_cases filepath args workdir timeout sb w :
  execute_file env filepath args workdir timeout (sb, w)
  = match open_read env (tick w) filepath with
    | Ok code => execute env code None workdir timeout (sb, step w)
    | Raise e =>
        if isinstance e FileNotFoundError then
          (models.ExecutionResult_init "" ("File not found: " ++ filepath)
             1 0 false
             (match _container sb with Some c => docker.id c | None => "" end)
             ("python3 " ++ filepath),
           (sb, step w))
        else (Raise e, (sb, step w))
    end.
Proof.
  unfold execute_file, bind, attempt, call_open_read.
  destruct (open_read env (tick w) filepath) as [code|e]; [reflexivity |].
  now destruct (isinstance e FileNotFoundError).
Qed.

(** C4: when opening the file raises [FileNotFoundError], [execute_file]
    returns a result with exit code 1, [stderr] "File not found: " followed
    by the path and [execution_time] 0.0; the session object is untouched
    (no connect) and no call has been issued to the runtime. *)
Theorem C4_file_not_found filepath args workdir timeout sb w e
    (Hopen : open_read env (tick w) filepath = Raise e)
    (Hclass : isinstance e FileNotFoundError = true) :
  exists r,
    execute_file env filepath args workdir timeout (sb, w) = (Ok r, (sb, step w))
    /\ models.exit_code r = 1
    /\ models.stderr r = "File not found: " ++ filepath
    /\ models.execution_time r = 0%float
    /\ calls (step w) = calls w.
Proof.
  rewrite execute_file_cases, Hopen, Hclass.
  eexists; split; [reflexivity |]. repeat split.
Qed.

(** C8: [args] does not reach the command: [execute_file] with any [args]
    is [execute_file] with [args=None], and what it dispatches is
    [execute] of the file's text, [python3 -c <text>]. *)
Theorem C8_args_ignored filepath args workdir timeout :
  execute_file env filepath args workdir timeout
  = execute_file env filepath None workdir timeout
  /\ (forall sb w,
      execute_file env filepath args workdir timeout (sb, w)
      = match open_read env (tick w) filepath with
        | Ok code => execute env code None workdir timeout (sb, step w)
        | Raise _ => execute_file env filepath None workdir timeout (sb, w)
        end).
Proof.
  split; [reflexivity |].
  intros sb w. rewrite !execute_file_cases.
  now destruct (open_read env (tick w) filepath).
Qed.

(** *** is_healthy *)

(** C7: [is_healthy] always returns a boolean, whatever [_connect] and the
    probe do, and the boolean is [True] exactly when [_connect] succeeded
    and the probe [execute("print('health_check')", timeout=5)] returned a
    successful result whose [stdout] contains [health_check]. *)
Theorem C7_is_healthy_total st :
  exists b st',
    is_healthy env st = (Ok b, st')
    /\ (b = true <->
        exists st1 r st2,
          _connect env st = (Ok tt, st1)
          /\ execute env "print('health_check')" None None (Some 5) st1
             = (Ok r, st2)
          /\ models.success r = true
          /\ Py.str_in "health_check" (models.stdout r) = true).
Proof.
  unfold is_healthy, try_except, bind, ret.
  destruct (_connect env st) as [[[]|e] st1] eqn:Hc.
  - destruct (execute env "print('health_check')" None None (Some 5) st1)
      as [[r|e] st2] eqn:Hp.
    + exists (models.success r && Py.str_in "health_check" (models.stdout r)), st2.
      split; [reflexivity |]. rewrite andb_true_iff. split.
      * intros [Hs Hm]. exists st1, r, st2. auto.
      * intros (st1' & r' & st2' & [= <-] & Hp' & Hs & Hm).
        rewrite Hp in Hp'. injection Hp' as <- _. auto.
    + exists false, st2. split; [reflexivity |]. split; [discriminate |].
      intros (st1' & r' & st2' & [= <-] & Hp' & _).
      rewrite Hp in Hp'. discriminate.
  - exists false, st1. split; [reflexivity |]. split; [discriminate |].
    intros (st1' & r' & st2' & Hx & _). discriminate.
Qed.

End Session.

(* ================================================================= *)
(** ** Runs on concrete collaborators *)

Section Runs.

Import sandbox session_spec scenario.

(** The container [nope] does not exist: the first [_connect] fails and
    keeps client 7. *)
Lemma C9_connect_keeps_client_run :
  _connect (scripted steady (Ok hi) (Ok "")) (fresh "nope")
  = (Raise (mkExn ContainerNotFoundError "Container 'nope' not found"),
     ({| config := cfg "nope"; _client := Some 7%nat; _container := None |},
      {| tick := 2; calls := [CallFromEnv; CallGet 7%nat "nope"] |})).
Proof.
  exact (proj1 (C9_connect_keeps_client (scripted steady (Ok hi) (Ok ""))
                  (fst (fresh "nope")) (snd (fresh "nope")) 7%nat
                  (mkExn NotFound "404 Client Error: No such container: nope")
                  eq_refl eq_refl eq_refl eq_refl)).
Defined.

(** [exec_run] raises after a minute: both operations return the exit code
    -1 result. *)
Lemma execute_dispatch_failure_recovered_run :
  let env := scripted stalled (Raise read_timeout) (Ok "") in
  (exists r,
      fst (execute env "print('hi')" None None None (fresh "sandbox")) = Ok r
      /\ models.exit_code r = -1
      /\ models.stderr r = "Read timed out. (read timeout=60)"
      /\ models.stdout r = "" /\ models.execution_time r = (160 - 100)%float)
  /\ (exists r,
      fst (execute_shell env "ls" None None None (fresh "sandbox")) = Ok r
      /\ models.exit_code r = -1
      /\ models.stderr r = "Read timed out. (read timeout=60)"
      /\ models.stdout r = "" /\ models.execution_time r = (160 - 100)%float).
Proof.
  intros env.
  pose proof (execute_dispatch_failure_recovered env
                (fst (fresh "sandbox")) (snd (fresh "sandbox"))
                {| config := cfg "sandbox"; _client := Some 7%nat;
                   _container := Some {| docker.id := "c0ffee" |} |}
                {| tick := 2; calls := [CallFromEnv; CallGet 7%nat "sandbox"] |}
                {| docker.id := "c0ffee" |} read_timeout
                eq_refl eq_refl eq_refl) as [Hx Hs].
  split.
  - destruct (Hx "print('hi')" None None None eq_refl) as [r [Hr Hf]].
    exists r. split; [| exact Hf].
    change (fresh "sandbox") with (fst (fresh "sandbox"), snd (fresh "sandbox")).
    now rewrite Hr.
  - destruct (Hs "ls" None None None eq_refl) as [r [Hr Hf]].
    exists r. split; [| exact Hf].
    change (fresh "sandbox") with (fst (fresh "sandbox"), snd (fresh "sandbox")).
    now rewrite Hr.
Defined.

(** C2 fails on the code when the clock is set back while the dispatch
    runs: [exec_run] raises, the handler measures a negative time (7 - 12),
    the result model refuses it, and [execute] (as [execute_shell]) raises
    the validation error out of the handler instead of returning the exit
    code -1 result. *)
Lemma C2_clock_set_back_raises :
  let env := scripted set_back (Raise read_timeout) (Ok "") in
  exec_run env 3 {| docker.id := "c0ffee" |} ["python3"; "-c"; "print('hi')"]
    "/projects" = Raise read_timeout
  /\ fst (execute env "print('hi')" None None None (fresh "sandbox"))
     = Raise (validation_error "ExecutionResult" "execution_time")
  /\ fst (execute_shell env "ls" None None None (fresh "sandbox"))
     = Raise (validation_error "ExecutionResult" "execution_time")
  /\ ~ (exists r,
         fst (execute env "print('hi')" None None None (fresh "sandbox")) = Ok r).
Proof.
  intros env. repeat split; try (vm_compute; reflexivity).
  intros [r Hr]. vm_compute in Hr. discriminate.
Qed.

(** C3 fails where [exec_run] raises: with the configured timeout of 10
    seconds and a dispatch that raises after 60 seconds, the result of
    [execute] (as of [execute_shell]) has [execution_time] 60, above the
    timeout, and [timeout_occurred] false. *)
Lemma C3_flag_unset_when_dispatch_raises :
  let env := scripted stalled (Raise read_timeout) (Ok "") in
  (exists r st,
      execute env "print('hi')" None None None (fresh "sandbox") = (Ok r, st)
      /\ models.execution_time r = 60%float
      /\ Py.float_gt_int (models.execution_time r)
           (Py.or_int None (config.timeout (cfg "sandbox"))) = true
      /\ models.timeout_occurred r = false)
  /\ (exists r st,
      execute_shell env "ls" None None None (fresh "sandbox") = (Ok r, st)
      /\ models.execution_time r = 60%float
      /\ Py.float_gt_int (models.execution_time r)
           (Py.or_int None (config.timeout (cfg "sandbox"))) = true
      /\ models.timeout_occurred r = false).
Proof.
  intros env; split; vm_compute; do 2 eexists; repeat split.
Qed.

(** [a.py] does not exist: [execute_file] answers locally. *)
Lemma C4_file_not_found_run :
  exists r,
    execute_file (scripted steady (Ok hi) (Raise (no_such_file "a.py")))
      "a.py" (Some ["--fast"]) None None (fresh "sandbox")
    = (Ok r, (fst (fresh "sandbox"), {| tick := 1; calls := [] |}))
    /\ models.exit_code r = 1
    /\ models.stderr r = "File not found: a.py"
    /\ models.execution_time r = 0%float
    /\ calls {| tick := 1; calls := [] |} = [].
Proof.
  exact (C4_file_not_found (scripted steady (Ok hi) (Raise (no_such_file "a.py")))
           "a.py" (Some ["--fast"]) None None
           (fst (fresh "sandbox")) (snd (fresh "sandbox"))
           (no_such_file "a.py") eq_refl eq_refl).
Defined.

End Runs.

(* ================================================================= *)
(** ** More on the result model *)

Section ResultValues.

Import models.

(** X1: [return_value] is an OUTPUT exactly for a command that exited with
    0 without timing out and either wrote to stdout or wrote nothing to
    stderr; so a clean exit that only wrote to stderr is an ERROR, as is any
    result with [timeout_occurred]. *)
Theorem return_value_output_iff (r : ExecutionResult) :
  type (return_value r) = OUTPUT
  <-> exit_code r = 0 /\ timeout_occurred r = false
      /\ (stdout r <> "" \/ stderr r = "").
Proof.
  rewrite <- and_assoc, <- success_iff. unfold return_value.
  destruct (success r); destruct (Py.truthy_str (stdout r)) eqn:Ho;
    destruct (Py.truthy_str (stderr r)) eqn:He; simpl;
    repeat match goal with
      | H : Py.truthy_str _ = true |- _ => apply truthy_str_true in H
      | H : Py.truthy_str _ = false |- _ => apply truthy_str_false in H
      end;
    split; try discriminate; try tauto;
    intros [Hs Hd]; try discriminate; destruct Hd; congruence.
Qed.

(** X2: the content of [return_value] is empty only for a successful
    command that wrote nothing at all; an ERROR always carries a text. *)
Theorem return_value_content_empty_iff (r : ExecutionResult) :
  content (return_value r) = ""
  <-> success r = true /\ stdout r = "" /\ stderr r = "".
Proof.
  unfold return_value.
  destruct (success r); destruct (Py.truthy_str (stdout r)) eqn:Ho;
    destruct (Py.truthy_str (stderr r)) eqn:He; simpl;
    repeat match goal with
      | H : Py.truthy_str _ = true |- _ => apply truthy_str_true in H
      | H : Py.truthy_str _ = false |- _ => apply truthy_str_false in H
      end;
    split; try discriminate; try tauto;
    intros (Hs & H1 & H2); try discriminate; congruence.
Qed.

Lemma ExecutionResult_init_inv out err code elapsed flag cid cmd r :
  ExecutionResult_init out err code elapsed flag cid cmd = Ok r ->
  Py.float_ge_zero elapsed = true
  /\ r = {| stdout := out; stderr := err; exit_code := code;
            execution_time := elapsed; timeout_occurred := flag;
            container_id := cid; command := cmd |}.
Proof.
  unfold ExecutionResult_init.
  destruct (Py.float_ge_zero elapsed) eqn:H; [| discriminate].
  intros [= <-]. split; reflexivity.
Qed.

End ResultValues.

(* ================================================================= *)
(** ** More on the execution session *)

Section SessionPaths.

Import sandbox session_spec dispatch_spec.
Local Open Scope py_scope.

Variable env : Env.

Lemma decode_or_empty_value b st :
  decode_or_empty env b st = (decode_value env b, st).
Proof. destruct b as [[|x xs]|]; reflexivity. Qed.

(** [dispatch] on a session that holds a container, path by path. *)
Lemma dispatch_cases cmd wd tmo sb w c :
  _container sb = Some c ->
  let t0 := time_time env (tick w) in
  let t2 := time_time env (S (S (tick w))) in
  let t3 := time_time env (S (S (S (tick w)))) in
  let w2 := dispatched c cmd wd w in
  dispatch env cmd wd tmo (sb, w)
  = match exec_run env (S (tick w)) c cmd wd with
    | Raise e =>
        (models.ExecutionResult_init "" (str e) (-1) (t2 - t0)%float false
           (docker.id c) (Py.join " " cmd), (sb, w2))
    | Ok x =>
        match decode_streams env x with
        | Ok (out, err) =>
            (models.ExecutionResult_init out err (docker.exit_code x)
               (t2 - t0)%float (Py.float_gt_int (t2 - t0)%float tmo)
               (docker.id c) (Py.join " " cmd), (sb, w2))
        | Raise e =>
            (models.ExecutionResult_init "" (str e) (-1) (t3 - t0)%float
               (Py.float_gt_int (t2 - t0)%float tmo)
               (docker.id c) (Py.join " " cmd), (sb, step w2))
        end
    end.
Proof.
  intros Hc t0 t2 t3 w2.
  destruct (exec_run env (S (tick w)) c cmd wd) as [x|e] eqn:Hx.
  - destruct sb as [cf cl ct]; simpl in Hc; subst ct.
    destruct x as [code [so se]].
    unfold dispatch, bind, attempt, call_time, self, lift, deref, call_exec_run, ret.
    cbn [fst snd tick step issue _container docker.output docker.exit_code].
    rewrite Hx. cbn [docker.output docker.exit_code].
    rewrite !decode_or_empty_value.
    unfold decode_streams; cbn [docker.output fst snd].
    destruct (decode_value env so) as [out|e]; [| reflexivity].
    destruct (decode_value env se) as [err|e]; reflexivity.
  - apply dispatch_raised; assumption.
Qed.

(** [dispatch] never touches the session object. *)
Lemma dispatch_object cmd wd tmo sb w :
  fst (snd (dispatch env cmd wd tmo (sb, w))) = sb.
Proof.
  destruct (_container sb) as [c|] eqn:Hc.
  - rewrite (dispatch_cases cmd wd tmo sb w c Hc).
    destruct (exec_run env (S (tick w)) c cmd wd) as [x|e]; [| reflexivity].
    destruct (decode_streams env x) as [[out err]|e]; reflexivity.
  - destruct sb as [cf cl ct]; simpl in Hc; subst ct. reflexivity.
Qed.

Lemma _connect_config st :
  config (fst (snd (_connect env st))) = config (fst st).
Proof.
  destruct st as [[cf [c|] [h|]] w];
    unfold _connect, bind, try_except, self; simpl.
  - reflexivity.
  - destruct (containers_get env (tick w) c (config.container cf)) as [h|e];
      simpl; [reflexivity |].
    destruct (isinstance e NotFound); [reflexivity |].
    destruct (isinstance e APIError); reflexivity.
  - destruct (docker_from_env env (tick w)) as [c|e]; reflexivity.
  - destruct (docker_from_env env (tick w)) as [c|e]; simpl; [| reflexivity].
    destruct (containers_get env (S (tick w)) c (config.container cf)) as [h|e];
      simpl; [reflexivity |].
    destruct (isinstance e NotFound); [reflexivity |].
    destruct (isinstance e APIError); reflexivity.
Qed.

(** [execute] and [execute_shell] as [_connect] followed by [dispatch]. *)
Lemma execute_after_connect code stdin workdir timeout st :
  execute env code stdin workdir timeout st
  = match _connect env st with
    | (Ok _, (sb1, w1)) =>
        dispatch env ["python3"; "-c"; code]
          (Py.or_str workdir (config.workdir (config sb1)))
          (Py.or_int timeout (config.timeout (config sb1))) (sb1, w1)
    | (Raise e, st1) => (Raise e, st1)
    end.
Proof.
  unfold execute, bind, self.
  destruct (_connect env st) as [[[]|e] [sb1 w1]]; reflexivity.
Qed.

Lemma execute_shell_after_connect command workdir timeout shell st :
  execute_shell env command workdir timeout shell st
  = match _connect env st with
    | (Ok _, (sb1, w1)) =>
        dispatch env [Py.or_str shell (config.shell (config sb1)); "-c"; command]
          (Py.or_str workdir (config.workdir (config sb1)))
          (Py.or_int timeout (config.timeout (config sb1))) (sb1, w1)
    | (Raise e, st1) => (Raise e, st1)
    end.
Proof.
  unfold execute_shell, bind, self.
  destruct (_connect env st) as [[[]|e] [sb1 w1]]; reflexivity.
Qed.

End SessionPaths.

Section SessionProperties.

Import sandbox session_spec dispatch_spec.
Local Open Scope py_scope.

Variable env : Env.

(** *** Connecting *)

(** X3: once [_connect] has succeeded, calling it again does nothing: it
    returns without a call to the runtime and leaves the session and the
    world as they are. *)
Theorem _connect_idempotent st st1
    (Hconnect : _connect env st = (Ok tt, st1)) :
  _connect env st1 = (Ok tt, st1).
Proof.
  destruct st as [sb w], st1 as [sb1 w1].
  destruct (_connect_ok env _ _ _ _ Hconnect) as (_ & [c Hc] & [h Hh]).
  exact (_connect_connected env sb1 w1 c h Hc Hh).
Qed.

Lemma _connect_no_client cf ct w e :
  docker_from_env env (tick w) = Raise e ->
  _connect env ({| config := cf; _client := None; _container := ct |}, w)
  = (Raise (mkExn ContainerConnectionError
              ("Failed to connect to Docker: " ++ str e)),
     ({| config := cf; _client := None; _container := ct |},
      issue CallFromEnv w)).
Proof.
  intros H. unfold _connect, bind, try_except, self; simpl. now rewrite H.
Qed.

(** X4: when [docker.from_env()] raises, [_connect] raises
    [ContainerConnectionError] with the text "Failed to connect to Docker: "
    followed by the cause, stores nothing in the session and never asks for
    the container. *)
Theorem _connect_from_env_fails sb w e
    (Hclient : _client sb = None)
    (Hfrom_env : docker_from_env env (tick w) = Raise e) :
  _connect env (sb, w)
  = (Raise (mkExn ContainerConnectionError
              ("Failed to connect to Docker: " ++ str e)),
     (sb, issue CallFromEnv w)).
Proof.
  destruct sb as [cf cl ct]; simpl in Hclient; subst cl.
  now apply _connect_no_client.
Qed.

(** X5: an exception leaving [_connect] is a [SandboxError]
    ([ContainerConnectionError] or [ContainerNotFoundError]) unless it is an
    exception of [containers.get] outside docker's [APIError] family, which
    passes through as it is; docker's [NotFound] and [APIError] never reach
    the caller. *)
Theorem _connect_raises_classified st e st'
    (Hraise : _connect env st = (Raise e, st')) :
  isinstance e SandboxError = true
  \/ (isinstance e APIError = false
      /\ exists n c,
           containers_get env n c (config.container (config (fst st))) = Raise e).
Proof.
  destruct st as [[cf [c|] [h|]] w]; cbn [fst config].
  - rewrite (_connect_connected env {| config := cf; _client := Some c; _container := Some h |}
               w c h eq_refl eq_refl) in Hraise. discriminate.
  - rewrite _connect_resolves in Hraise.
    destruct (containers_get env (tick w) c (config.container cf)) as [h|e0] eqn:Hg;
      [discriminate |].
    injection Hraise as <- _. unfold resolution_error.
    destruct (isinstance e0 NotFound) eqn:Hn; [left; reflexivity |].
    destruct (isinstance e0 APIError) eqn:Ha; [left; reflexivity |].
    right. split; [exact Ha | eauto].
  - unfold _connect, bind, try_except, self in Hraise; simpl in Hraise.
    destruct (docker_from_env env (tick w)) as [c|e0]; simpl in Hraise.
    + discriminate.
    + injection Hraise as <- _. left; reflexivity.
  - destruct (docker_from_env env (tick w)) as [c|e0] eqn:Hf.
    + rewrite (_connect_acquires env cf c w Hf), _connect_resolves in Hraise.
      cbn [tick issue] in Hraise.
      destruct (containers_get env (S (tick w)) c (config.container cf))
        as [h|e1] eqn:Hg; [discriminate |].
      injection Hraise as <- _. unfold resolution_error.
      destruct (isinstance e1 NotFound) eqn:Hn; [left; reflexivity |].
      destruct (isinstance e1 APIError) eqn:Ha; [left; reflexivity |].
      right. split; [exact Ha | eauto].
    + rewrite (_connect_no_client cf None w e0 Hf) in Hraise.
      injection Hraise as <- _. left; reflexivity.
Qed.

(** *** execute and execute_shell *)

(** X6: a failure of [_connect] is not recovered: [execute] and
    [execute_shell] raise the same exception, in the state [_connect] left,
    without reading the clock or dispatching anything. *)
Theorem execute_propagates_connect_failure st e st1
    (Hconnect : _connect env st = (Raise e, st1)) :
  (forall code stdin workdir timeout,
      execute env code stdin workdir timeout st = (Raise e, st1))
  /\ (forall command workdir timeout shell,
      execute_shell env command workdir timeout shell st = (Raise e, st1)).
Proof.
  split; intros.
  - now rewrite execute_after_connect, Hconnect.
  - now rewrite execute_shell_after_connect, Hconnect.
Qed.

(** X7: when [exec_run] returns, both streams decode and the measured
    time (the rounded difference of the two clock readings) is not
    negative, [execute] returns the decoded streams (empty for [None] or
    [b""]), the exit code of the runtime, the measured time and
    [timeout_occurred] set exactly when that time exceeds the per-call
    timeout or, failing it, the configured one; the world has one more
    runtime call, the [exec_run] of [python3 -c code] in the chosen working
    directory. *)
Theorem execute_returned code stdin workdir timeout sb w sb1 w1 c x out err
    (Hconnect : _connect env (sb, w) = (Ok tt, (sb1, w1)))
    (Hcontainer : _container sb1 = Some c)
    (Hrun : exec_run env (S (tick w1)) c ["python3"; "-c"; code]
              (Py.or_str workdir (config.workdir (config sb))) = Ok x)
    (Hdecode : decode_streams env x = Ok (out, err))
    (Hmeasured : Py.float_ge_zero
                   (time_time env (S (S (tick w1))) - time_time env (tick w1))%float
                 = true) :
  let elapsed := (time_time env (S (S (tick w1))) - time_time env (tick w1))%float in
  let wd := Py.or_str workdir (config.workdir (config sb)) in
  execute env code stdin workdir timeout (sb, w)
  = (Ok {| models.stdout := out; models.stderr := err;
           models.exit_code := docker.exit_code x;
           models.execution_time := elapsed;
           models.timeout_occurred :=
             Py.float_gt_int elapsed
               (Py.or_int timeout (config.timeout (config sb)));
           models.container_id := docker.id c;
           models.command := "python3 -c " ++ code |},
     (sb1, dispatched c ["python3"; "-c"; code] wd w1))
  /\ calls (dispatched c ["python3"; "-c"; code] wd w1)
     = (calls w1 ++ [CallExecRun c ["python3"; "-c"; code] wd])%list.
Proof.
  intros elapsed wd. subst elapsed wd. split; [| reflexivity].
  destruct (_connect_ok env _ _ _ _ Hconnect) as [Hcfg _].
  rewrite execute_after_connect, Hconnect, Hcfg.
  rewrite (dispatch_cases env _ _ _ sb1 w1 c Hcontainer).
  rewrite Hrun, Hdecode.
  rewrite ExecutionResult_init_ok; [reflexivity | exact Hmeasured].
Qed.

(** X8: when [exec_run] returns but a stream does not decode, and the time
    measured in the handler (the rounded difference of the handler's clock
    reading and the first one) is not negative, the command's own exit code
    and output are dropped: [execute] returns exit code -1, empty [stdout]
    and the decoding error as [stderr]; [execution_time] is that time,
    taken at a later clock reading than the one [timeout_occurred] was
    computed from. *)
Theorem execute_undecodable code stdin workdir timeout sb w sb1 w1 c x e
    (Hconnect : _connect env (sb, w) = (Ok tt, (sb1, w1)))
    (Hcontainer : _container sb1 = Some c)
    (Hrun : exec_run env (S (tick w1)) c ["python3"; "-c"; code]
              (Py.or_str workdir (config.workdir (config sb))) = Ok x)
    (Hdecode : decode_streams env x = Raise e)
    (Hmeasured : Py.float_ge_zero
                   (time_time env (S (S (S (tick w1)))) - time_time env (tick w1))%float
                 = true) :
  let t0 := time_time env (tick w1) in
  let t2 := time_time env (S (S (tick w1))) in
  let t3 := time_time env (S (S (S (tick w1)))) in
  exists st',
    execute env code stdin workdir timeout (sb, w)
    = (Ok {| models.stdout := ""; models.stderr := str e;
             models.exit_code := -1;
             models.execution_time := (t3 - t0)%float;
             models.timeout_occurred :=
               Py.float_gt_int (t2 - t0)%float
                 (Py.or_int timeout (config.timeout (config sb)));
             models.container_id := docker.id c;
             models.command := "python3 -c " ++ code |}, st').
Proof.
  intros t0 t2 t3. subst t0 t2 t3.
  destruct (_connect_ok env _ _ _ _ Hconnect) as [Hcfg _].
  rewrite execute_after_connect, Hconnect, Hcfg.
  rewrite (dispatch_cases env _ _ _ sb1 w1 c Hcontainer).
  rewrite Hrun, Hdecode.
  rewrite ExecutionResult_init_ok; [eexists; reflexivity | exact Hmeasured].
Qed.

End SessionProperties.

Section SessionInvariants.

Import sandbox session_spec dispatch_spec.
Local Open Scope py_scope.

Variable env : Env.

Lemma dispatch_result cmd wd tmo sb w c r st' :
  _container sb = Some c ->
  dispatch env cmd wd tmo (sb, w) = (Ok r, st') ->
  Py.float_ge_zero (models.execution_time r) = true
  /\ models.command r = Py.join " " cmd
  /\ models.container_id r = docker.id c
  /\ fst st' = sb
  /\ exists l, calls (snd st') = (l ++ [CallExecRun c cmd wd])%list.
Proof.
  intros Hc. rewrite (dispatch_cases env cmd wd tmo sb w c Hc).
  destruct (exec_run env (S (tick w)) c cmd wd) as [x|e];
    [destruct (decode_streams env x) as [[out err]|e] |];
    intros [= Hr <-];
    apply ExecutionResult_init_inv in Hr as [Hpos ->]; cbn;
    (repeat split; try assumption; eexists; reflexivity).
Qed.

(** X9: a result returned by [execute] names what was dispatched: its
    [command] is "python3 -c " followed by the code, its [container_id] is
    the id of the container the session holds afterwards, the last call to
    the runtime is that [exec_run], and its [execution_time] is not
    negative. *)
Theorem execute_result_provenance code stdin workdir timeout st r st'
    (Hreturn : execute env code stdin workdir timeout st = (Ok r, st')) :
  models.command r = "python3 -c " ++ code
  /\ Py.float_ge_zero (models.execution_time r) = true
  /\ exists c,
       _container (fst st') = Some c
       /\ models.container_id r = docker.id c
       /\ exists l,
            calls (snd st')
            = (l ++ [CallExecRun c ["python3"; "-c"; code]
                       (Py.or_str workdir (config.workdir (config (fst st))))])%list.
Proof.
  rewrite execute_after_connect in Hreturn.
  destruct st as [sb w].
  destruct (_connect env (sb, w)) as [[[]|e] [sb1 w1]] eqn:Hc; [| discriminate].
  destruct (_connect_ok env _ _ _ _ Hc) as (Hcfg & _ & [c Hct]).
  destruct (dispatch_result _ _ _ _ _ c _ _ Hct Hreturn)
    as (Hpos & Hcmd & Hid & Hsb & Hcalls).
  rewrite Hcfg in Hcalls.
  split; [exact Hcmd |]. split; [exact Hpos |].
  exists c. rewrite Hsb. auto.
Qed.

(** X10: a result returned by [execute_shell] has as [command] the shell in
    force (the per-call one unless empty, else the configured one), " -c "
    and the command line; its [container_id] is the id of the session's
    container, the last call to the runtime is that [exec_run], and its
    [execution_time] is not negative. *)
Theorem execute_shell_result_provenance command workdir timeout shell st r st'
    (Hreturn : execute_shell env command workdir timeout shell st = (Ok r, st')) :
  let sh := Py.or_str shell (config.shell (config (fst st))) in
  models.command r = sh ++ " -c " ++ command
  /\ Py.float_ge_zero (models.execution_time r) = true
  /\ exists c,
       _container (fst st') = Some c
       /\ models.container_id r = docker.id c
       /\ exists l,
            calls (snd st')
            = (l ++ [CallExecRun c [sh; "-c"; command]
                       (Py.or_str workdir (config.workdir (config (fst st))))])%list.
Proof.
  intros sh; subst sh.
  rewrite execute_shell_after_connect in Hreturn.
  destruct st as [sb w].
  destruct (_connect env (sb, w)) as [[[]|e] [sb1 w1]] eqn:Hc; [| discriminate].
  destruct (_connect_ok env _ _ _ _ Hc) as (Hcfg & _ & [c Hct]).
  destruct (dispatch_result _ _ _ _ _ c _ _ Hct Hreturn)
    as (Hpos & Hcmd & Hid & Hsb & Hcalls).
  rewrite Hcfg in Hcalls, Hcmd. cbn [fst].
  split; [exact Hcmd |]. split; [exact Hpos |].
  exists c. rewrite Hsb. auto.
Qed.

(** *** execute_file *)

(** X11: [execute_file] recovers [FileNotFoundError] only: any other
    exception of opening or reading the file (a permission error, a
    directory, undecodable text) propagates, and again nothing is asked of
    the runtime and the session is untouched. *)
Theorem execute_file_other_error_propagates filepath args workdir timeout sb w e
    (Hopen : open_read env (tick w) filepath = Raise e)
    (Hclass : isinstance e FileNotFoundError = false) :
  execute_file env filepath args workdir timeout (sb, w) = (Raise e, (sb, step w))
  /\ calls (step w) = calls w.
Proof.
  rewrite execute_file_cases, Hopen, Hclass. split; reflexivity.
Qed.

(** X12: a result returned by [execute_file] is either the local
    "File not found" result, with command "python3 " followed by the path, or
    a result of dispatching the file's text with [python3 -c]; its
    [execution_time] is never negative. *)
Theorem execute_file_result filepath args workdir timeout st r st'
    (Hreturn : execute_file env filepath args workdir timeout st = (Ok r, st')) :
  Py.float_ge_zero (models.execution_time r) = true
  /\ ((models.command r = "python3 " ++ filepath /\ models.exit_code r = 1
       /\ snd st' = step (snd st) /\ fst st' = fst st)
      \/ (exists code,
            open_read env (tick (snd st)) filepath = Ok code
            /\ models.command r = "python3 -c " ++ code)).
Proof.
  destruct st as [sb w]. rewrite execute_file_cases in Hreturn. cbn [fst snd].
  destruct (open_read env (tick w) filepath) as [code|e] eqn:Ho.
  - rewrite execute_after_connect in Hreturn.
    destruct (_connect env (sb, step w)) as [[[]|e] [sb1 w1]] eqn:Hc; [| discriminate].
    destruct (_connect_ok env _ _ _ _ Hc) as (Hcfg & _ & [c Hct]).
    destruct (dispatch_result _ _ _ _ _ c _ _ Hct Hreturn)
      as (Hpos & Hcmd & _).
    split; [exact Hpos |]. right. exists code. split; [reflexivity | exact Hcmd].
  - destruct (isinstance e FileNotFoundError); [| discriminate].
    injection Hreturn as <- <-. cbn [models.execution_time models.command
                                     models.exit_code fst snd].
    split; [reflexivity |]. left. auto.
Qed.

(** *** What no operation changes *)

Lemma execute_config code stdin workdir timeout st :
  config (fst (snd (execute env code stdin workdir timeout st))) = config (fst st).
Proof.
  rewrite execute_after_connect.
  pose proof (_connect_config env st) as Hc.
  destruct (_connect env st) as [[[]|e] [sb1 w1]]; cbn [fst snd] in *;
    [| exact Hc].
  now rewrite dispatch_object.
Qed.

(** X13: no operation of the session changes its configuration:
    [_connect], [execute], [execute_shell], [execute_file] and [is_healthy]
    end, returning or raising, with the [config] they started with. *)
Theorem operations_keep_config st :
  config (fst (snd (_connect env st))) = config (fst st)
  /\ (forall code stdin workdir timeout,
      config (fst (snd (execute env code stdin workdir timeout st)))
      = config (fst st))
  /\ (forall command workdir timeout shell,
      config (fst (snd (execute_shell env command workdir timeout shell st)))
      = config (fst st))
  /\ (forall filepath args workdir timeout,
      config (fst (snd (execute_file env filepath args workdir timeout st)))
      = config (fst st))
  /\ config (fst (snd (is_healthy env st))) = config (fst st).
Proof.
  split; [apply _connect_config |].
  split; [intros; apply execute_config |].
  split; [| split].
  - intros. rewrite execute_shell_after_connect.
    pose proof (_connect_config env st) as Hc.
    destruct (_connect env st) as [[[]|e] [sb1 w1]]; cbn [fst snd] in *;
      [| exact Hc].
    now rewrite dispatch_object.
  - intros. destruct st as [sb w]. rewrite execute_file_cases.
    destruct (open_read env (tick w) filepath) as [code|e].
    + now rewrite execute_config.
    + now destruct (isinstance e FileNotFoundError).
  - unfold is_healthy, try_except, bind, ret.
    pose proof (_connect_config env st) as Hc.
    destruct (_connect env st) as [[[]|e] st1]; cbn [fst snd] in *;
      [| exact Hc].
    pose proof (execute_config "print('health_check')" None None (Some 5) st1) as He.
    destruct (execute env "print('health_check')" None None (Some 5) st1)
      as [[r|e] st2]; cbn [fst snd] in *; congruence.
Qed.

End SessionInvariants.

Section HealthCheck.

Import sandbox session_spec dispatch_spec.
Local Open Scope py_scope.

Variable env : Env.

(** X14: when the probe is dispatched and its streams decode, [is_healthy]
    is true exactly when the probe exited with 0, the measured time (the
    rounded difference of the two clock readings) is not negative and not
    above 5 seconds, whatever timeout the configuration has, and the probe
    printed [health_check]; the probe runs in the configured working
    directory. *)
Theorem is_healthy_probe sb w sb1 w1 c x out err
    (Hconnect : _connect env (sb, w) = (Ok tt, (sb1, w1)))
    (Hcontainer : _container sb1 = Some c)
    (Hrun : exec_run env (S (tick w1)) c
              ["python3"; "-c"; "print('health_check')"]
              (config.workdir (config sb)) = Ok x)
    (Hdecode : decode_streams env x = Ok (out, err)) :
  let elapsed := (time_time env (S (S (tick w1))) - time_time env (tick w1))%float in
  is_healthy env (sb, w)
  = (Ok ((docker.exit_code x =? 0)
         && Py.float_ge_zero elapsed
         && negb (Py.float_gt_int elapsed 5)
         && Py.str_in "health_check" out),
     (sb1, dispatched c ["python3"; "-c"; "print('health_check')"]
             (config.workdir (config sb)) w1)).
Proof.
  intros elapsed; subst elapsed.
  destruct (_connect_ok env _ _ _ _ Hconnect) as (Hcfg & [cl Hcl] & _).
  unfold is_healthy, try_except, bind, ret. rewrite Hconnect.
  rewrite execute_after_connect.
  rewrite (_connect_connected env sb1 w1 cl c Hcl Hcontainer).
  rewrite (dispatch_cases env _ _ _ sb1 w1 c Hcontainer).
  cbn [Py.or_str Py.or_int Z.eqb]. rewrite Hcfg, Hrun, Hdecode.
  unfold models.ExecutionResult_init.
  destruct (Py.float_ge_zero _).
  - now rewrite andb_true_r.
  - now rewrite andb_false_r.
Qed.

End HealthCheck.

(* ================================================================= *)
(** ** Closing, scoped use and container metadata *)

Section Lifecycle.

Import sandbox session_spec lifecycle.
Local Open Scope py_scope.

Variable env : Env.
Variable obj : Objects.

(** [close], by whether a client is held and how it closes. *)
Lemma close_cases sb w :
  close obj (sb, w)
  = match _client sb with
    | Some client =>
        match client_close obj (tick w) client with
        | Ok _ => (Ok tt, (Sandbox_init (config sb), step w))
        | Raise e => (Raise e, (sb, step w))
        end
    | None => (Ok tt, (Sandbox_init (config sb), w))
    end.
Proof.
  destruct sb as [cf [client|] ct]; unfold close, bind, self; simpl;
    [| reflexivity].
  now destruct (client_close obj (tick w) client) as [[]|e].
Qed.

(** X15: [close] on a session that holds a client closes that client and
    forgets both the client and the container: the session is as newly
    built for its configuration. *)
Theorem close_releases sb w c
    (Hclient : _client sb = Some c)
    (Hclose : client_close obj (tick w) c = Ok tt) :
  close obj (sb, w) = (Ok tt, (Sandbox_init (config sb), step w)).
Proof.
  now rewrite close_cases, Hclient, Hclose.
Qed.

(** X16: [close] on a session without a client (never connected, or closed
    before) cannot raise and touches no collaborator; it clears the
    container handle, if any. *)
Theorem close_without_client st
    (Hclient : _client (fst st) = None) :
  close obj st = (Ok tt, (Sandbox_init (config (fst st)), snd st)).
Proof.
  destruct st as [sb w]; cbn [fst snd] in *. now rewrite close_cases, Hclient.
Qed.

(** X17: [close] is idempotent: after a [close] that returned, a second
    [close] returns too and changes nothing. *)
Theorem close_idempotent st st1
    (Hclose : close obj st = (Ok tt, st1)) :
  close obj st1 = (Ok tt, st1).
Proof.
  destruct st as [sb w]. rewrite close_cases in Hclose.
  destruct (_client sb) as [client|].
  - destruct (client_close obj (tick w) client) as [[]|e]; [| discriminate].
    injection Hclose as <-. now rewrite close_cases.
  - injection Hclose as <-. now rewrite close_cases.
Qed.

(** X18: when [client.close()] raises, [close] raises the same exception
    before it has reset anything: the session still holds the client and
    the container. *)
Theorem close_failure_keeps_handles sb w c e
    (Hclient : _client sb = Some c)
    (Hclose : client_close obj (tick w) c = Raise e) :
  close obj (sb, w) = (Raise e, (sb, step w)).
Proof. now rewrite close_cases, Hclient, Hclose. Qed.

(** X19: after [close], the next [_connect] starts over: it asks for a new
    client with [docker.from_env()] and resolves the container again with
    it; the handles of before the [close] are not reused. *)
Theorem close_then_connect sb w c c' h'
    (Hclient : _client sb = Some c)
    (Hclose : client_close obj (tick w) c = Ok tt)
    (Hfrom_env : docker_from_env env (S (tick w)) = Ok c')
    (Hget : containers_get env (S (S (tick w))) c'
              (config.container (config sb)) = Ok h') :
  (close obj ;; _connect env) (sb, w)
  = (Ok tt,
     ({| config := config sb; _client := Some c'; _container := Some h' |},
      issue (CallGet c' (config.container (config sb)))
        (issue CallFromEnv (step w))))
  /\ calls (issue (CallGet c' (config.container (config sb)))
              (issue CallFromEnv (step w)))
     = (calls w ++ [CallFromEnv; CallGet c' (config.container (config sb))])%list.
Proof.
  split.
  - unfold bind at 1. rewrite close_cases, Hclient, Hclose.
    unfold Sandbox_init.
    rewrite (_connect_acquires env (config sb) c' (step w) Hfrom_env).
    rewrite _connect_resolves. cbn [tick issue step]. now rewrite Hget.
  - cbn [calls issue step]. now rewrite <- app_assoc.
Qed.

(** [with_] once [__enter__] is through, by the outcome of the block. *)
Lemma with_cases {A} (body : M A) st :
  with_ env obj body st
  = match _connect env st with
    | (Raise e, st1) => (Raise e, st1)
    | (Ok _, st1) =>
        match body st1 with
        | (r, st2) =>
            match close obj st2 with
            | (Ok _, st3) => (r, st3)
            | (Raise e, st3) => (Raise e, st3)
            end
        end
    end.
Proof.
  unfold with_, __enter__, __exit__, bind, attempt, self, lift.
  destruct (_connect env st) as [[[]|e] st1]; [| reflexivity].
  destruct (body st1) as [r st2].
  now destruct (close obj st2) as [[[]|e] st3].
Qed.

(** X20: a [with] block over the session ends closed: when [__enter__]
    connects and the client closes without error, the statement has the
    outcome of the block, returned or raised, and the session is left with
    neither client nor container. *)
Theorem with_closes_session {A} (body : M A) st st1 r sb2 w2 c
    (Hconnect : _connect env st = (Ok tt, st1))
    (Hbody : body st1 = (r, (sb2, w2)))
    (Hclient : _client sb2 = Some c)
    (Hclose : client_close obj (tick w2) c = Ok tt) :
  with_ env obj body st = (r, (Sandbox_init (config sb2), step w2)).
Proof.
  rewrite with_cases, Hconnect, Hbody, close_cases, Hclient, Hclose.
  reflexivity.
Qed.

(** X21: when [__enter__] cannot resolve the container, the [with]
    statement raises what [_connect] raises, the block does not run and
    neither does [__exit__]: the client acquired by [docker.from_env()]
    stays in the session, not closed. *)
Theorem with_enter_fails_client_left_open {A} (body : M A) cf w c e
    (Hfrom_env : docker_from_env env (tick w) = Ok c)
    (Hget : containers_get env (S (tick w)) c (config.container cf) = Raise e) :
  with_ env obj body (Sandbox_init cf, w)
  = (Raise (resolution_error (config.container cf) e),
     ({| config := cf; _client := Some c; _container := None |},
      issue (CallGet c (config.container cf)) (issue CallFromEnv w))).
Proof.
  rewrite with_cases. unfold Sandbox_init.
  rewrite (_connect_acquires env cf c w Hfrom_env), _connect_resolves.
  cbn [tick issue]. now rewrite Hget.
Qed.

End Lifecycle.

Section ContainerMetadata.

Import sandbox session_spec lifecycle json container_info.
Local Open Scope py_scope.

Variable env : Env.
Variable obj : Objects.

(** [lstrip] removes a prefix made of the given characters, and all of it. *)
Lemma lstrip_decompose (chars s : string) :
  exists p,
    s = p ++ lstrip chars s
    /\ (forall a, In a (list_ascii_of_string p) -> mem_char a chars = true)
    /\ match lstrip chars s with
       | EmptyString => True
       | String a _ => mem_char a chars = false
       end.
Proof.
  induction s as [|a s IH]; simpl.
  - exists "". repeat split. intros a [].
  - destruct (mem_char a chars) eqn:Ha.
    + destruct IH as (p & Hp & Hin & Hhead).
      exists (String a p). simpl. repeat split.
      * now rewrite <- Hp.
      * intros b [<- | Hb]; [exact Ha | now apply Hin].
      * exact Hhead.
    + exists "". repeat split; [intros b [] | exact Ha].
Qed.

Lemma lstrip_slash_head (s : string) :
  String.prefix "/" (lstrip "/" s) = false.
Proof.
  destruct (lstrip_decompose "/" s) as (_ & _ & _ & H).
  destruct (lstrip "/" s) as [|a t]; [reflexivity |].
  cbn [String.prefix].
  destruct (Ascii.ascii_dec "/" a) as [<- | Hn]; [discriminate | reflexivity].
Qed.

(** [get_container_info] once [_connect] is through, as the chain of
    subscripts the constructor call evaluates, in order. *)
Lemma get_container_info_cases st :
  get_container_info env obj st
  = match _connect env st with
    | (Raise e, st1) => (Raise e, st1)
    | (Ok _, (sb1, w1)) =>
        match _container sb1 with
        | None =>
            (Raise (mkExn AttributeError
                      "'NoneType' object has no attribute 'attrs'"), (sb1, w1))
        | Some c =>
            let attrs := JDict (container_attrs obj (tick w1) c) in
            (match getitem attrs "Name" with
             | Raise e => Raise e
             | Ok n =>
             match call_lstrip n "/" with
             | Raise e => Raise e
             | Ok name =>
             match getitem attrs "Config" with
             | Raise e => Raise e
             | Ok cfg =>
             match getitem cfg "Image" with
             | Raise e => Raise e
             | Ok image =>
             match getitem attrs "State" with
             | Raise e => Raise e
             | Ok state =>
             match getitem state "Status" with
             | Raise e => Raise e
             | Ok status =>
             match getitem attrs "Created" with
             | Raise e => Raise e
             | Ok created =>
                 ContainerInfo_init (docker.id c) name image status created
             end end end end end end end, (sb1, w1))
        end
    end.
Proof.
  unfold get_container_info, bind, self, lift, read_attrs, deref, ret, raise.
  destruct (_connect env st) as [[[]|e] [sb1 w1]]; [| reflexivity].
  destruct sb1 as [cf cl [c|]]; cbn [fst snd _container]; [| reflexivity].
  destruct (getitem _ "Name") as [n|e]; [| reflexivity].
  destruct (call_lstrip n "/") as [name|e]; [| reflexivity].
  destruct (getitem _ "Config") as [cfg|e]; [| reflexivity].
  destruct (getitem cfg "Image") as [image|e]; [| reflexivity].
  destruct (getitem _ "State") as [state|e]; [| reflexivity].
  destruct (getitem state "Status") as [status|e]; [| reflexivity].
  destruct (getitem _ "Created") as [created|e]; reflexivity.
Qed.

(** X22: on a container whose [attrs] hold a text under [Name], under
    [Image] of [Config], under [Status] of [State] and under [Created],
    [get_container_info] returns the id of the handle, the name without its
    leading slashes and the three other texts; beyond connecting it asks
    nothing of the runtime. *)
Theorem get_container_info_returns st sb1 w1 c n cfg i state s cr
    (Hconnect : _connect env st = (Ok tt, (sb1, w1)))
    (Hcontainer : _container sb1 = Some c)
    (Hname : lookup "Name" (container_attrs obj (tick w1) c) = Some (JStr n))
    (Hconfig : lookup "Config" (container_attrs obj (tick w1) c) = Some (JDict cfg))
    (Himage : lookup "Image" cfg = Some (JStr i))
    (Hstate : lookup "State" (container_attrs obj (tick w1) c) = Some (JDict state))
    (Hstatus : lookup "Status" state = Some (JStr s))
    (Hcreated : lookup "Created" (container_attrs obj (tick w1) c) = Some (JStr cr)) :
  get_container_info env obj st
  = (Ok {| id := docker.id c; name := lstrip "/" n; image := i;
           status := s; created := cr |}, (sb1, w1)).
Proof.
  rewrite get_container_info_cases, Hconnect, Hcontainer.
  cbv zeta. unfold getitem at 1. rewrite Hname.
  unfold call_lstrip. unfold getitem at 1. rewrite Hconfig.
  unfold getitem at 1. rewrite Himage.
  unfold getitem at 1. rewrite Hstate.
  unfold getitem at 1. rewrite Hstatus.
  unfold getitem at 1. rewrite Hcreated.
  reflexivity.
Qed.

(** X23: the [name] of a returned [ContainerInfo] never starts with a
    slash: it is the [Name] of the container's [attrs] with every leading
    slash removed, and [id] is the id of the session's container. *)
Theorem get_container_info_name st info st'
    (Hreturn : get_container_info env obj st = (Ok info, st')) :
  String.prefix "/" (name info) = false
  /\ exists c n p,
       _container (fst st') = Some c
       /\ id info = docker.id c
       /\ lookup "Name" (container_attrs obj (tick (snd st')) c) = Some (JStr n)
       /\ n = p ++ name info
       /\ (forall a, In a (list_ascii_of_string p) -> a = "/"%char).
Proof.
  rewrite get_container_info_cases in Hreturn.
  destruct (_connect env st) as [[[]|e] [sb1 w1]]; [| discriminate].
  destruct (_container sb1) as [c|] eqn:Hc; [| discriminate].
  cbv zeta in Hreturn.
  destruct (getitem _ "Name") as [nv|e] eqn:Hn; [| discriminate].
  destruct (call_lstrip nv "/") as [nm|e] eqn:Hl; [| discriminate].
  destruct (getitem _ "Config") as [cfg|e]; [| discriminate].
  destruct (getitem cfg "Image") as [image|e]; [| discriminate].
  destruct (getitem _ "State") as [state|e]; [| discriminate].
  destruct (getitem state "Status") as [status|e]; [| discriminate].
  destruct (getitem _ "Created") as [created|e]; [| discriminate].
  injection Hreturn as Hinit <-. cbn [fst snd].
  unfold ContainerInfo_init in Hinit.
  destruct (validate_str "image" image); [| discriminate].
  destruct (validate_str "status" status); [| discriminate].
  destruct (validate_str "created" created); [| discriminate].
  injection Hinit as <-. cbn [name id].
  destruct nv as [| | | |n| |]; try discriminate.
  injection Hl as <-.
  split; [apply lstrip_slash_head |].
  unfold getitem in Hn.
  destruct (lookup "Name" (container_attrs obj (tick w1) c)) as [v|] eqn:Hlk;
    [| discriminate].
  injection Hn as ->.
  destruct (lstrip_decompose "/" n) as (p & Hp & Hin & _).
  exists c, n, p. repeat split; try assumption.
  intros ch Hch. specialize (Hin ch Hch). cbn [mem_char] in Hin.
  destruct (Ascii.eqb_spec ch "/"); [assumption | discriminate].
Qed.

(** X24: when the container's [attrs] have no [Name], [get_container_info]
    raises the [KeyError] of the subscript; it is not translated into an
    error of the library. *)
Theorem get_container_info_missing_name st sb1 w1 c
    (Hconnect : _connect env st = (Ok tt, (sb1, w1)))
    (Hcontainer : _container sb1 = Some c)
    (Hname : lookup "Name" (container_attrs obj (tick w1) c) = None) :
  get_container_info env obj st = (Raise (mkExn KeyError "'Name'"), (sb1, w1))
  /\ isinstance (mkExn KeyError "'Name'") SandboxError = false.
Proof.
  rewrite get_container_info_cases, Hconnect, Hcontainer.
  cbv zeta. unfold getitem at 1. rewrite Hname. split; reflexivity.
Qed.

(** X25: when [_connect] raises, [get_container_info] raises the same
    exception in the state [_connect] left, and the [attrs] are not read. *)
Theorem get_container_info_propagates_connect_failure st e st1
    (Hconnect : _connect env st = (Raise e, st1)) :
  get_container_info env obj st = (Raise e, st1).
Proof. now rewrite get_container_info_cases, Hconnect. Qed.

End ContainerMetadata.

Section Reuse.

Import sandbox session_spec dispatch_spec.
Local Open Scope py_scope.

Variable env : Env.

(** X26: a session connects once: after an [execute] that returned a
    result (also the exit code -1 result of a failed dispatch), a further
    [execute] goes straight to the dispatch on the same client and
    container, with no [docker.from_env()] and no [containers.get]. *)
Theorem execute_reuses_connection code stdin workdir timeout st r st1
    (Hreturn : execute env code stdin workdir timeout st = (Ok r, st1)) :
  forall code' stdin' workdir' timeout',
    execute env code' stdin' workdir' timeout' st1
    = dispatch env ["python3"; "-c"; code']
        (Py.or_str workdir' (config.workdir (config (fst st1))))
        (Py.or_int timeout' (config.timeout (config (fst st1)))) st1.
Proof.
  intros code' stdin' workdir' timeout'.
  rewrite execute_after_connect in Hreturn.
  destruct st as [sb w].
  destruct (_connect env (sb, w)) as [[[]|e] [sb1 w1]] eqn:Hc; [| discriminate].
  destruct (_connect_ok env _ _ _ _ Hc) as (_ & [cl Hcl] & [c Hct]).
  destruct (dispatch_result env _ _ _ _ _ c _ _ Hct Hreturn) as (_ & _ & _ & Hsb & _).
  destruct st1 as [sb2 w2]; cbn [fst] in *; subst sb2.
  rewrite execute_after_connect.
  now rewrite (_connect_connected env sb1 w2 cl c Hcl Hct).
Qed.

End Reuse.

Section ConfigurationFields.

Import config.

(** X27: a configuration built with a timeout in range holds the
    container, working directory and shell exactly as given, whatever the
    strings (none is checked, the empty one included), and [/workspace] and
    [/bin/bash] where they were omitted. *)
Theorem SandboxConfig_init_stores c w t s
    (Hrange : 1 <= t <= 3600) :
  SandboxConfig_init c w (Some t) s
  = Ok {| container := c;
          workdir := match w with Some x => x | None => "/workspace" end;
          timeout := t;
          shell := match s with Some x => x | None => "/bin/bash" end |}.
Proof.
  unfold SandboxConfig_init. now rewrite (validate_timeout_ok t Hrange).
Qed.

End ConfigurationFields.

(* ================================================================= *)
(** ** More runs on concrete collaborators *)

Section MoreRuns.

Import sandbox session_spec dispatch_spec lifecycle scenario scenario_info.
Local Open Scope py_scope.

Local Notation "'env_hi'" := (scripted steady (Ok hi) (Ok "print('hi')")).
Local Notation "'c0ffee'" := {| docker.id := "c0ffee" |}.
Local Notation "'nope_left'" :=
  ({| config := cfg "nope"; _client := Some 7%nat; _container := None |},
   {| tick := 2; calls := [CallFromEnv; CallGet 7%nat "nope"] |}).
Local Notation "'nope_error'" :=
  (mkExn ContainerNotFoundError "Container 'nope' not found").

Lemma _connect_idempotent_run :
  _connect env_hi connected = (Ok tt, connected).
Proof.
  exact (_connect_idempotent env_hi (fresh "sandbox") connected eq_refl).
Defined.

Lemma _connect_from_env_fails_run :
  _connect no_daemon (fst (fresh "sandbox"), snd (fresh "sandbox"))
  = (Raise (mkExn ContainerConnectionError
              "Failed to connect to Docker: Error while fetching server API version"),
     (fst (fresh "sandbox"), {| tick := 1; calls := [CallFromEnv] |})).
Proof.
  exact (_connect_from_env_fails no_daemon
           (fst (fresh "sandbox")) (snd (fresh "sandbox"))
           (mkExn DockerException "Error while fetching server API version")
           eq_refl eq_refl).
Defined.

Lemma _connect_raises_classified_run :
  isinstance nope_error SandboxError = true
  \/ (isinstance nope_error APIError = false
      /\ exists n c, containers_get env_hi n c "nope" = Raise nope_error).
Proof.
  exact (_connect_raises_classified env_hi (fresh "nope") nope_error nope_left
           eq_refl).
Defined.

Lemma execute_propagates_connect_failure_run :
  execute env_hi "print('hi')" None None None (fresh "nope")
  = (Raise nope_error, nope_left).
Proof.
  exact (proj1 (execute_propagates_connect_failure env_hi (fresh "nope")
                  nope_error nope_left eq_refl)
           "print('hi')" None None None).
Defined.

(** Readings 0.3 and 10.3 with the configured timeout of 10 seconds: the
    measured time is 10.0 and the flag is unset. *)
Lemma execute_returned_run :
  exists r,
    fst (execute (scripted ten_seconds (Ok hi) (Ok "")) "print('hi')"
           None None None
           (fst (fresh "sandbox"), snd (fresh "sandbox"))) = Ok r
    /\ models.exit_code r = 0 /\ models.stderr r = ""
    /\ models.execution_time r = 10%float
    /\ models.timeout_occurred r = false
    /\ models.command r = "python3 -c print('hi')".
Proof.
  pose proof (execute_returned (scripted ten_seconds (Ok hi) (Ok ""))
                "print('hi')" None None None
                (fst (fresh "sandbox")) (snd (fresh "sandbox"))
                (fst connected) (snd connected) c0ffee hi _ _
                eq_refl eq_refl eq_refl eq_refl
                eq_refl) as [H _].
  eexists. split; [rewrite H; reflexivity |]. repeat split.
Defined.

Lemma execute_undecodable_run :
  exists r,
    fst (execute (scripted steady (Ok garbled) (Ok "")) "print('hi')"
           None None None (fst (fresh "sandbox"), snd (fresh "sandbox"))) = Ok r
    /\ models.exit_code r = -1 /\ models.stdout r = ""
    /\ models.stderr r = "'utf-8' codec can't decode byte".
Proof.
  destruct (execute_undecodable (scripted steady (Ok garbled) (Ok ""))
              "print('hi')" None None None
              (fst (fresh "sandbox")) (snd (fresh "sandbox"))
              (fst connected) (snd connected) c0ffee garbled _
              eq_refl eq_refl eq_refl eq_refl
              eq_refl) as [st' H].
  eexists. split; [rewrite H; reflexivity |]. repeat split.
Defined.

Lemma execute_result_provenance_run :
  exists r,
    fst (execute env_hi "print('hi')" None None None (fresh "sandbox")) = Ok r
    /\ models.command r = "python3 -c print('hi')".
Proof.
  eexists. split; [reflexivity |].
  exact (proj1 (execute_result_provenance env_hi "print('hi')" None None None
                  (fresh "sandbox") _ _ eq_refl)).
Defined.

Lemma execute_shell_result_provenance_run :
  exists r,
    fst (execute_shell env_hi "ls -la" None None (Some "") (fresh "sandbox")) = Ok r
    /\ models.command r = "/bin/bash -c ls -la".
Proof.
  eexists. split; [reflexivity |].
  exact (proj1 (execute_shell_result_provenance env_hi "ls -la" None None
                  (Some "") (fresh "sandbox") _ _ eq_refl)).
Defined.

Lemma execute_file_other_error_propagates_run :
  execute_file (scripted steady (Ok hi) (Raise (permission_denied "a.py")))
    "a.py" None None None (fst (fresh "sandbox"), snd (fresh "sandbox"))
  = (Raise (permission_denied "a.py"),
     (fst (fresh "sandbox"), {| tick := 1; calls := [] |})).
Proof.
  exact (proj1 (execute_file_other_error_propagates
                  (scripted steady (Ok hi) (Raise (permission_denied "a.py")))
                  "a.py" None None None
                  (fst (fresh "sandbox")) (snd (fresh "sandbox"))
                  (permission_denied "a.py") eq_refl eq_refl)).
Defined.

Lemma execute_file_result_run :
  exists r,
    fst (execute_file (scripted steady (Ok hi) (Raise (no_such_file "a.py")))
           "a.py" None None None (fresh "sandbox")) = Ok r
    /\ Py.float_ge_zero (models.execution_time r) = true.
Proof.
  eexists. split; [reflexivity |].
  exact (proj1 (execute_file_result
                  (scripted steady (Ok hi) (Raise (no_such_file "a.py")))
                  "a.py" None None None (fresh "sandbox") _ _ eq_refl)).
Defined.

(** Readings 0.7 and 5.7: the probe took 5.0 seconds and passes. *)
Lemma is_healthy_probe_run :
  fst (is_healthy (scripted five_seconds (Ok health) (Ok ""))
         (fst (fresh "sandbox"), snd (fresh "sandbox"))) = Ok true.
Proof.
  rewrite (is_healthy_probe (scripted five_seconds (Ok health) (Ok ""))
             (fst (fresh "sandbox")) (snd (fresh "sandbox"))
             (fst connected) (snd connected) c0ffee health _ _
             eq_refl eq_refl eq_refl eq_refl).
  reflexivity.
Defined.

(** The clock set back while the probe runs: a probe that exited with 0
    and printed the marker is reported unhealthy. *)
Example is_healthy_clock_set_back :
  fst (is_healthy (scripted set_back (Ok health) (Ok "")) (fresh "sandbox"))
  = Ok false.
Proof. reflexivity. Qed.

Local Notation "'closed'" :=
  (Sandbox_init (cfg "sandbox"),
   {| tick := 3; calls := [CallFromEnv; CallGet 7%nat "sandbox"] |}).

Lemma close_releases_run :
  close (objects inspected) (fst connected, snd connected) = (Ok tt, closed).
Proof.
  exact (close_releases (objects inspected) (fst connected)
           (snd connected) 7%nat eq_refl eq_refl).
Defined.

Lemma close_without_client_run :
  close (objects inspected) (fresh "sandbox")
  = (Ok tt, (Sandbox_init (cfg "sandbox"), snd (fresh "sandbox"))).
Proof.
  exact (close_without_client (objects inspected) (fresh "sandbox") eq_refl).
Defined.

Lemma close_idempotent_run :
  close (objects inspected) closed = (Ok tt, closed).
Proof.
  exact (close_idempotent (objects inspected) connected closed eq_refl).
Defined.

Lemma close_failure_keeps_handles_run :
  close stuck (fst connected, snd connected)
  = (Raise (mkExn OSError "Bad file descriptor"),
     (fst connected,
      {| tick := 3; calls := [CallFromEnv; CallGet 7%nat "sandbox"] |})).
Proof.
  exact (close_failure_keeps_handles stuck (fst connected) (snd connected)
           7%nat (mkExn OSError "Bad file descriptor") eq_refl eq_refl).
Defined.

Lemma close_then_connect_run :
  (close (objects inspected) ;; _connect env_hi) (fst connected, snd connected)
  = (Ok tt,
     (fst connected,
      {| tick := 5;
         calls := [CallFromEnv; CallGet 7%nat "sandbox";
                   CallFromEnv; CallGet 7%nat "sandbox"] |})).
Proof.
  exact (proj1 (close_then_connect env_hi (objects inspected)
                  (fst connected) (snd connected) 7%nat 7%nat c0ffee
                  eq_refl eq_refl eq_refl eq_refl)).
Defined.

Lemma with_closes_session_run :
  fst (snd (with_ env_hi (objects inspected)
              (execute env_hi "print('hi')" None None None)
              (fresh "sandbox")))
  = Sandbox_init (cfg "sandbox").
Proof.
  rewrite (with_closes_session env_hi (objects inspected)
             (execute env_hi "print('hi')" None None None)
             (fresh "sandbox") connected _ _ _ 7%nat
             eq_refl eq_refl eq_refl eq_refl).
  reflexivity.
Defined.

Lemma with_enter_fails_client_left_open_run :
  with_ env_hi (objects inspected)
    (execute env_hi "print('hi')" None None None)
    (Sandbox_init (cfg "nope"), snd (fresh "nope"))
  = (Raise nope_error, nope_left).
Proof.
  exact (with_enter_fails_client_left_open env_hi (objects inspected)
           (execute env_hi "print('hi')" None None None)
           (cfg "nope") (snd (fresh "nope")) 7%nat
           (mkExn NotFound "404 Client Error: No such container: nope")
           eq_refl eq_refl).
Defined.

Lemma get_container_info_returns_run :
  get_container_info env_hi (objects inspected) (fresh "sandbox")
  = (Ok {| container_info.id := "c0ffee"; container_info.name := "sandbox";
           container_info.image := "python:3.11-slim";
           container_info.status := "running";
           container_info.created := "2024-05-01T10:00:00.000000000Z" |},
     connected).
Proof.
  exact (get_container_info_returns env_hi (objects inspected)
           (fresh "sandbox") (fst connected) (snd connected) c0ffee
           "/sandbox" [("Image", json.JStr "python:3.11-slim")]
           "python:3.11-slim"
           [("Status", json.JStr "running"); ("Running", json.JBool true)]
           "running" "2024-05-01T10:00:00.000000000Z"
           eq_refl eq_refl eq_refl eq_refl eq_refl eq_refl eq_refl eq_refl).
Defined.

Lemma get_container_info_name_run :
  exists info,
    fst (get_container_info env_hi
           (objects [("Name", json.JStr "//a/b"); ("Created", json.JStr "");
                     ("State", json.JDict [("Status", json.JStr "exited")]);
                     ("Config", json.JDict [("Image", json.JStr "")])])
           (fresh "sandbox")) = Ok info
    /\ container_info.name info = "a/b"
    /\ String.prefix "/" (container_info.name info) = false.
Proof.
  eexists. split; [reflexivity |]. split; [reflexivity |].
  exact (proj1 (get_container_info_name env_hi
                  (objects [("Name", json.JStr "//a/b"); ("Created", json.JStr "");
                            ("State", json.JDict [("Status", json.JStr "exited")]);
                            ("Config", json.JDict [("Image", json.JStr "")])])
                  (fresh "sandbox") _ _ eq_refl)).
Defined.

Lemma get_container_info_missing_name_run :
  get_container_info env_hi (objects [("Id", json.JStr "c0ffee")])
    (fresh "sandbox")
  = (Raise (mkExn json.KeyError "'Name'"), connected).
Proof.
  exact (proj1 (get_container_info_missing_name env_hi
                  (objects [("Id", json.JStr "c0ffee")])
                  (fresh "sandbox") (fst connected) (snd connected) c0ffee
                  eq_refl eq_refl eq_refl)).
Defined.

Lemma get_container_info_propagates_connect_failure_run :
  get_container_info env_hi (objects inspected) (fresh "nope")
  = (Raise nope_error, nope_left).
Proof.
  exact (get_container_info_propagates_connect_failure env_hi
           (objects inspected) (fresh "nope") nope_error nope_left eq_refl).
Defined.

Lemma execute_reuses_connection_run :
  let st1 := snd (execute env_hi "print('hi')" None None None (fresh "sandbox")) in
  execute env_hi "1+1" None (Some "/tmp") None st1
  = dispatch env_hi ["python3"; "-c"; "1+1"] "/tmp" 10 st1.
Proof.
  exact (execute_reuses_connection env_hi "print('hi')" None None None
           (fresh "sandbox") _ _ eq_refl "1+1" None (Some "/tmp") None).
Defined.

Lemma SandboxConfig_init_stores_run :
  config.SandboxConfig_init "" None (Some 10) None
  = Ok {| config.container := ""; config.workdir := "/workspace";
          config.timeout := 10; config.shell := "/bin/bash" |}.
Proof.
  exact (SandboxConfig_init_stores "" None 10 None ltac:(lia)).
Defined.

End MoreRuns.
